(** * AgenticAI Lab dashboard: a shallow embedding of [DashboardPage]

    The only executable logic of the repository is the React component
    [DashboardPage] (the dashboard page listed in PROJECT_STATUS.md): two
    status projections ([getStatusIcon], [getStatusBadge]), the mocked
    [fetchData], and the [createJob] handler with its [setTimeout] callback.

    The component is embedded as follows.
    - JavaScript strings are sequences of UTF-16 code units.
    - A [switch] statement is evaluated by a small interpreter with strict
      equality and fall-through; a function that falls off its end returns
      [None] (JavaScript's [undefined]).
    - Handlers run in a state-and-exception monad over a [World] that holds
      the React state, the alert and console logs, the timer queue and the
      clocks.
    - The browser is an event-driven step function: the mount effect, input
      changes, clicks, the passing of time and timer expiry. *)

From Stdlib Require Import List Bool Arith NArith ZArith Lia.
From Stdlib Require Import String Ascii DecimalString DecimalZ.
Import ListNotations.

Set Implicit Arguments.

(* ================================================================== *)
(** ** JavaScript fragments used by the component *)

Module JS.

(** A string is a list of UTF-16 code units. *)
Definition code_unit := N.
Definition jsstring := list code_unit.

(** An ASCII literal of the source as a JavaScript string. *)
Definition js (s : string) : jsstring :=
  map N_of_ascii (list_ascii_of_string s).

(** [a === b] on strings. *)
Fixpoint strict_eq (a b : jsstring) : bool :=
  match a, b with
  | [], [] => true
  | x :: a', y :: b' => N.eqb x y && strict_eq a' b'
  | _, _ => false
  end.

(** ToBoolean on strings: only the empty string is falsy. *)
Definition truthy (s : jsstring) : bool :=
  match s with [] => false | _ :: _ => true end.

(** ECMAScript WhiteSpace and LineTerminator code points, the set that
    [String.prototype.trim] strips: TAB, LF, VT, FF, CR, SP, NBSP, the
    Unicode space separators, LS, PS and the byte order mark. *)
Definition is_white_space (c : code_unit) : bool :=
  ((9 <=? c) && (c <=? 13)
   || (c =? 32) || (c =? 160) || (c =? 5760)
   || (8192 <=? c) && (c <=? 8202)
   || (c =? 8232) || (c =? 8233) || (c =? 8239) || (c =? 8287)
   || (c =? 12288) || (c =? 65279))%N.

Fixpoint trimStart (s : jsstring) : jsstring :=
  match s with
  | [] => []
  | c :: s' => if is_white_space c then trimStart s' else s
  end.

Definition trimEnd (s : jsstring) : jsstring := rev (trimStart (rev s)).

Definition trim (s : jsstring) : jsstring := trimEnd (trimStart s).

(** [s.substring(start, end)] for non-negative integer arguments: the
    arguments are clamped to the length and swapped when out of order. *)
Definition substring (s : jsstring) (start end_ : nat) : jsstring :=
  let lo := Nat.min start end_ in
  let hi := Nat.max start end_ in
  firstn (hi - lo) (skipn lo s).

(** [s.replace(pat, rep)] with a one-unit string pattern: only the first
    occurrence is replaced. *)
Fixpoint replace (s : jsstring) (pat : code_unit) (rep : jsstring) : jsstring :=
  match s with
  | [] => []
  | c :: s' => if N.eqb c pat then rep ++ s' else c :: replace s' pat rep
  end.

(** ToString of an integral Number of magnitude below 10^21 (every time
    value is one): the decimal digits, with a leading minus sign for a
    negative value. *)
Definition Number_toString (n : Z) : jsstring :=
  js (NilEmpty.string_of_int (Z.to_int n)).

(** *** The [switch] statement

    A clause is a label with either a [return] (its value) or an empty
    statement list, which falls through to the next clause. *)
Inductive clause (R : Type) : Type :=
| Case (label : jsstring) (body : option R).

(** Execution from a matched clause on: the first [return] reached, the
    default clause when every clause on the way is empty. *)
Fixpoint fall_through {R : Type} (cs : list (clause R)) (default : option R)
  : option R :=
  match cs with
  | [] => default
  | Case _ (Some r) :: _ => Some r
  | Case _ None :: cs' => fall_through cs' default
  end.

(** [switch v cs default]: clauses are tried in order with [===]; the
    default clause comes last, as in the source. [None] is the function
    falling off its end. *)
Fixpoint switch {R : Type} (v : jsstring) (cs : list (clause R))
  (default : option R) : option R :=
  match cs with
  | [] => default
  | Case l b :: cs' =>
      if strict_eq v l then fall_through cs default
      else switch v cs' default
  end.

Definition label {R : Type} (c : clause R) : jsstring :=
  match c with Case l _ => l end.

End JS.

Import JS.

(* ================================================================== *)
(** ** Data model *)

Module Agent.
Record t : Type := mk { id : jsstring; name : jsstring; status : jsstring }.
End Agent.

Module Job.
Record t : Type := mk { id : jsstring; type : jsstring; status : jsstring }.
End Job.

(** The lucide-react icons the page imports. *)
Inductive LucideIcon : Type :=
| Bot | Zap | Users | TrendingUp | Play | Pause
| RefreshCw | CheckCircle | Clock | AlertCircle.

(** [<Icon className=... />] *)
Record IconElement : Type :=
  { icon : LucideIcon; icon_className : jsstring }.

(** [<Badge variant=... className=...>children</Badge>] *)
Record BadgeElement : Type :=
  { variant : jsstring; badge_className : option jsstring; children : jsstring }.

(* ================================================================== *)
(** ** Status projection *)

Definition getStatusIcon (status : jsstring) : option IconElement :=
  switch status
    [ Case (js "ready")
        (Some {| icon := CheckCircle; icon_className := js "h-4 w-4 text-green-500" |});
      Case (js "busy") None;
      Case (js "processing")
        (Some {| icon := Clock; icon_className := js "h-4 w-4 text-yellow-500" |});
      Case (js "error") None;
      Case (js "failed")
        (Some {| icon := AlertCircle; icon_className := js "h-4 w-4 text-red-500" |});
      Case (js "completed")
        (Some {| icon := CheckCircle; icon_className := js "h-4 w-4 text-green-500" |}) ]
    (Some {| icon := RefreshCw; icon_className := js "h-4 w-4 text-gray-500" |}).

Definition getStatusBadge (status : jsstring) : option BadgeElement :=
  switch status
    [ Case (js "ready")
        (Some {| variant := js "secondary";
                 badge_className := Some (js "text-green-700 bg-green-100");
                 children := js "Ready" |});
      Case (js "busy") None;
      Case (js "processing")
        (Some {| variant := js "secondary";
                 badge_className := Some (js "text-yellow-700 bg-yellow-100");
                 children := js "Busy" |});
      Case (js "error") None;
      Case (js "failed")
        (Some {| variant := js "destructive";
                 badge_className := None;
                 children := js "Error" |});
      Case (js "completed")
        (Some {| variant := js "secondary";
                 badge_className := Some (js "text-green-700 bg-green-100");
                 children := js "Completed" |}) ]
    (Some {| variant := js "outline"; badge_className := None; children := status |}).

(** The closed status domain of the data model: the three [Agent] statuses
    and the four [Job] statuses. *)
Definition status_domain : list jsstring :=
  [ js "ready"; js "busy"; js "error";
    js "created"; js "processing"; js "completed"; js "failed" ].

(** The labels that have a [case] of their own in both switches. *)
Definition case_labels : list jsstring :=
  [ js "ready"; js "busy"; js "processing";
    js "error"; js "failed"; js "completed" ].

(** The fallback representations of the two [default] clauses. *)
Definition fallback_icon : IconElement :=
  {| icon := RefreshCw; icon_className := js "h-4 w-4 text-gray-500" |}.

Definition fallback_badge (status : jsstring) : BadgeElement :=
  {| variant := js "outline"; badge_className := None; children := status |}.

(* ================================================================== *)
(** ** Component state and its environment *)

(** The five [useState] cells of [DashboardPage]. *)
Record State : Type :=
  { agents : list Agent.t;
    jobs : list Job.t;
    loading : bool;
    jobPrompt : jsstring;
    isCreatingJob : bool }.

(** The closure handed to [setTimeout] by [createJob]. It captures the
    [jobPrompt] of the render in which the handler ran. *)
Inductive Closure : Type :=
| createJob_timeout (jobPrompt : jsstring).

(** A pending timer: its callback and the monotonic time at which it is due. *)
Record Timer : Type := { callback : Closure; due : N }.

Record World : Type :=
  { ui : State;
    alerts : list jsstring;          (* messages shown by [alert], oldest first *)
    console_errors : list jsstring;  (* lines written by [console.error] *)
    timers : list Timer;             (* pending timers, oldest first *)
    clock : N;                       (* monotonic milliseconds *)
    wall : Z;                        (* the value [Date.now()] returns *)
    effect_pending : bool }.         (* the mount effect has not run yet *)

Definition with_ui (f : State -> State) (w : World) : World :=
  {| ui := f (ui w); alerts := alerts w; console_errors := console_errors w;
     timers := timers w; clock := clock w; wall := wall w;
     effect_pending := effect_pending w |}.

Definition with_timers (ts : list Timer) (w : World) : World :=
  {| ui := ui w; alerts := alerts w; console_errors := console_errors w;
     timers := ts; clock := clock w; wall := wall w;
     effect_pending := effect_pending w |}.

Definition with_wall (now : Z) (w : World) : World :=
  {| ui := ui w; alerts := alerts w; console_errors := console_errors w;
     timers := timers w; clock := clock w; wall := now;
     effect_pending := effect_pending w |}.

Definition advance (ms : N) (w : World) : World :=
  {| ui := ui w; alerts := alerts w; console_errors := console_errors w;
     timers := timers w; clock := (clock w + ms)%N; wall := wall w;
     effect_pending := effect_pending w |}.

Definition effect_done (w : World) : World :=
  {| ui := ui w; alerts := alerts w; console_errors := console_errors w;
     timers := timers w; clock := clock w; wall := wall w;
     effect_pending := false |}.

(* ================================================================== *)
(** ** Handlers: a state-and-exception monad over [World] *)

Inductive Completion (A : Type) : Type :=
| Normal (a : A)
| Throw (e : jsstring).

Arguments Throw {A} e.

Definition Eff (A : Type) : Type := World -> Completion A * World.

Definition ret {A : Type} (a : A) : Eff A := fun w => (Normal a, w).

Definition bind {A B : Type} (m : Eff A) (k : A -> Eff B) : Eff B :=
  fun w =>
    match m w with
    | (Normal a, w') => k a w'
    | (Throw e, w') => (Throw e, w')
    end.

Declare Scope eff_scope.
Delimit Scope eff_scope with eff.
Notation "x <- m ;; k" := (bind m (fun x => k))
  (at level 61, m at next level, right associativity) : eff_scope.
Notation "m ;; k" := (bind m (fun _ => k))
  (at level 61, right associativity) : eff_scope.
Open Scope eff_scope.

(** [try { body } catch (error) { handler } finally { final }] *)
Definition try_catch_finally {A : Type}
  (body : Eff A) (handler : jsstring -> Eff A) (final : Eff unit) : Eff A :=
  fun w =>
    let (c, w1) := body w in
    let (c', w2) :=
      match c with
      | Normal a => (Normal a, w1)
      | Throw e => handler e w1
      end in
    match final w2 with
    | (Normal _, w3) => (c', w3)
    | (Throw e, w3) => (Throw e, w3)
    end.

(** The state setters returned by [useState]. *)
Definition setAgents (v : list Agent.t) : Eff unit :=
  fun w => (Normal tt,
    with_ui (fun s => {| agents := v; jobs := jobs s; loading := loading s;
                         jobPrompt := jobPrompt s;
                         isCreatingJob := isCreatingJob s |}) w).

Definition setJobs (update : list Job.t -> list Job.t) : Eff unit :=
  fun w => (Normal tt,
    with_ui (fun s => {| agents := agents s; jobs := update (jobs s);
                         loading := loading s; jobPrompt := jobPrompt s;
                         isCreatingJob := isCreatingJob s |}) w).

Definition setLoading (v : bool) : Eff unit :=
  fun w => (Normal tt,
    with_ui (fun s => {| agents := agents s; jobs := jobs s; loading := v;
                         jobPrompt := jobPrompt s;
                         isCreatingJob := isCreatingJob s |}) w).

Definition setJobPrompt (v : jsstring) : Eff unit :=
  fun w => (Normal tt,
    with_ui (fun s => {| agents := agents s; jobs := jobs s;
                         loading := loading s; jobPrompt := v;
                         isCreatingJob := isCreatingJob s |}) w).

Definition setIsCreatingJob (v : bool) : Eff unit :=
  fun w => (Normal tt,
    with_ui (fun s => {| agents := agents s; jobs := jobs s;
                         loading := loading s; jobPrompt := jobPrompt s;
                         isCreatingJob := v |}) w).

(** Reading a state cell. A handler closes over the values of the render
    that created it, and every render creates fresh handlers, so at the
    start of an event the closed-over value is the current one. *)
Definition read {A : Type} (cell : State -> A) : Eff A :=
  fun w => (Normal (cell (ui w)), w).

(** Browser primitives. *)
Definition alert (message : jsstring) : Eff unit :=
  fun w => (Normal tt,
    {| ui := ui w; alerts := alerts w ++ [message];
       console_errors := console_errors w; timers := timers w;
       clock := clock w; wall := wall w;
       effect_pending := effect_pending w |}).

Definition console_error (text error : jsstring) : Eff unit :=
  fun w => (Normal tt,
    {| ui := ui w; alerts := alerts w;
       console_errors := console_errors w ++ [text ++ js " " ++ error];
       timers := timers w; clock := clock w; wall := wall w;
       effect_pending := effect_pending w |}).

Definition Date_now : Eff Z := fun w => (Normal (wall w), w).

Definition setTimeout (cb : Closure) (delay : N) : Eff unit :=
  fun w => (Normal tt,
    with_timers (timers w ++ [{| callback := cb; due := (clock w + delay)%N |}]) w).

(* ================================================================== *)
(** ** [fetchData] *)

Definition mockAgents : list Agent.t :=
  [ Agent.mk (js "mistral") (js "Mistral 7B") (js "ready");
    Agent.mk (js "codellama") (js "Code Llama 13B") (js "ready");
    Agent.mk (js "llama") (js "Llama 3.2 3B") (js "ready");
    Agent.mk (js "research") (js "Research Agent") (js "ready") ].

Definition mockJobs : list Job.t :=
  [ Job.mk (js "job_001") (js "content_creation") (js "completed");
    Job.mk (js "job_002") (js "video_generation") (js "processing");
    Job.mk (js "job_003") (js "content_creation") (js "completed") ].

Definition fetchData : Eff unit :=
  try_catch_finally
    (setAgents mockAgents ;;
     setJobs (fun _ => mockJobs))
    (fun error => console_error (js "Error fetching data:") error)
    (setLoading false).

(* ================================================================== *)
(** ** [createJob] *)

Module MockResponse.
Record t : Type :=
  mk { id : jsstring; status : jsstring; type : jsstring;
       content : jsstring; model : jsstring }.
End MockResponse.

(** The template literal of [mockResponse.content]. The non-ASCII units
    are the ones the source file holds. *)
Definition content_template (jobPrompt : jsstring) : jsstring :=
  ([240; 376; 164; 8211]
   ++ js " AI Generated Content for: "
   ++ [34]
   ++ jobPrompt
   ++ [34; 10; 10]
   ++ js "This is a demo response! Your AgenticAI Lab system would nor"
   ++ js "mally connect to the Mistral 7B model running in Docker to g"
   ++ js "enerate real AI content. The infrastructure is set up with:"
   ++ [10; 10; 226; 8364; 162]
   ++ js " Ollama container with 3 LLM models"
   ++ [10; 226; 8364; 162]
   ++ js " PostgreSQL + Redis + Qdrant databases"
   ++ [10; 226; 8364; 162]
   ++ js " FastAPI backend (having connection issues)"
   ++ [10; 226; 8364; 162]
   ++ js " Next.js frontend (working perfectly!)"
   ++ [10; 10]
   ++ js "Once the backend is stable, you'll get real AI-generated con"
   ++ js "tent here!")%N.

(** The template literal of the completion alert. *)
Definition completed_message (jobPrompt content : jsstring) : jsstring :=
  ([240; 376; 381; 8240]
   ++ js " Job Completed!"
   ++ [10; 10]
   ++ js "Prompt: "
   ++ jobPrompt
   ++ [10; 10]
   ++ js "Content: "
   ++ substring content 0 150
   ++ js "...")%N.

Definition validation_message : jsstring :=
  js "Please enter a prompt for content creation!".

(** The body of the arrow function passed to [setTimeout]. *)
Definition timeout_callback (jobPrompt : jsstring) : Eff unit :=
  now <- Date_now ;;
  let mockResponse :=
    MockResponse.mk
      (js "job_" ++ Number_toString now)
      (js "completed")
      (js "content_creation")
      (content_template jobPrompt)
      (js "mistral:7b (simulated)") in
  alert (completed_message jobPrompt (MockResponse.content mockResponse)) ;;
  let newJob :=
    Job.mk (MockResponse.id mockResponse)
           (js "content_creation")
           (js "completed") in
  setJobs (fun prev => newJob :: prev) ;;
  setJobPrompt [] ;;
  setIsCreatingJob false.

Definition apply_closure (c : Closure) : Eff unit :=
  match c with
  | createJob_timeout p => timeout_callback p
  end.

Definition createJob : Eff unit :=
  prompt <- read jobPrompt ;;
  if negb (truthy (trim prompt)) then
    alert validation_message
  else
    setIsCreatingJob true ;;
    setTimeout (createJob_timeout prompt) 2000.

(* ================================================================== *)
(** ** Rendering *)

(** One row of the "AI Agents Status" and "Recent Jobs" cards. *)
Record Row : Type :=
  { row_key : jsstring;
    row_icon : option IconElement;
    row_title : jsstring;
    row_id_line : jsstring;
    row_badge : option BadgeElement }.

Definition agent_row (agent : Agent.t) : Row :=
  {| row_key := Agent.id agent;
     row_icon := getStatusIcon (Agent.status agent);
     row_title := Agent.name agent;
     row_id_line := js "ID: " ++ Agent.id agent;
     row_badge := getStatusBadge (Agent.status agent) |}.

Definition job_row (job : Job.t) : Row :=
  {| row_key := Job.id job;
     row_icon := getStatusIcon (Job.status job);
     row_title := replace (Job.type job) 95%N (js " ");
     row_id_line := js "ID: " ++ Job.id job;
     row_badge := getStatusBadge (Job.status job) |}.

(** What the non-loading branch of the component shows. *)
Record Dashboard : Type :=
  { prompt_value : jsstring;
    prompt_disabled : bool;
    create_disabled : bool;
    create_icon : IconElement;
    create_label : jsstring;
    total_agents : nat;
    active_jobs : nat;
    completed_jobs : nat;
    success_rate : jsstring;
    agent_rows : list Row;
    job_rows : list Row }.

Inductive View : Type :=
| LoadingView            (* the spinner with "Loading dashboard..." *)
| DashboardView (d : Dashboard).

Definition render (s : State) : View :=
  if loading s then LoadingView
  else
    DashboardView
      {| prompt_value := jobPrompt s;
         prompt_disabled := isCreatingJob s;
         create_disabled := isCreatingJob s;
         create_icon :=
           if isCreatingJob s
           then {| icon := RefreshCw; icon_className := js "h-4 w-4 animate-spin" |}
           else {| icon := Play; icon_className := js "h-4 w-4" |};
         create_label :=
           if isCreatingJob s then js "Creating..." else js "Create Job";
         total_agents := List.length (agents s);
         active_jobs :=
           List.length (filter (fun job => strict_eq (Job.status job) (js "processing"))
                          (jobs s));
         completed_jobs :=
           List.length (filter (fun job => strict_eq (Job.status job) (js "completed"))
                          (jobs s));
         success_rate := js "98%";
         agent_rows := map agent_row (agents s);
         job_rows := map job_row (jobs s) |}.

(* ================================================================== *)
(** ** The page as an event-driven system *)

Definition initial_state : State :=
  {| agents := []; jobs := []; loading := true;
     jobPrompt := []; isCreatingJob := false |}.

Definition initial_world : World :=
  {| ui := initial_state; alerts := []; console_errors := [];
     timers := []; clock := 0%N; wall := 0%Z; effect_pending := true |}.

Inductive Event : Type :=
| Mount                   (* the [useEffect] with no dependencies runs *)
| Change (value : jsstring)  (* [onChange] of the prompt input *)
| Click                   (* [onClick] of the create button *)
| Tick (ms : N)           (* time passes *)
| TimerFires (now : Z).   (* the oldest timer expires; [Date.now()] is [now] *)

(** An event happens only where the page offers it: the effect runs once,
    a disabled or unrendered control receives no input, a timer fires no
    earlier than it is due. The state a handler leaves behind is kept
    whatever its completion. *)
Definition step (e : Event) (w : World) : option World :=
  match e with
  | Mount =>
      if effect_pending w then Some (snd (fetchData (effect_done w))) else None
  | Change value =>
      match render (ui w) with
      | LoadingView => None
      | DashboardView d =>
          if prompt_disabled d then None else Some (snd (setJobPrompt value w))
      end
  | Click =>
      match render (ui w) with
      | LoadingView => None
      | DashboardView d =>
          if create_disabled d then None else Some (snd (createJob w))
      end
  | Tick ms => Some (advance ms w)
  | TimerFires now =>
      match timers w with
      | [] => None
      | t :: rest =>
          if (due t <=? clock w)%N
          then Some (snd (apply_closure (callback t)
                            (with_wall now (with_timers rest w))))
          else None
      end
  end.

Fixpoint run (es : list Event) (w : World) : option World :=
  match es with
  | [] => Some w
  | e :: es' =>
      match step e w with
      | Some w' => run es' w'
      | None => None
      end
  end.

Inductive reachable : World -> Prop :=
| reachable_initial : reachable initial_world
| reachable_step (e : Event) (w w' : World) :
    reachable w -> step e w = Some w' -> reachable w'.

(** The number of accepted submissions that have not resolved yet. *)
Definition in_flight (w : World) : nat := List.length (timers w).

(* ================================================================== *)
(** ** The job lifecycle of the data model *)

Inductive transition : jsstring -> jsstring -> Prop :=
| dispatched : transition (js "created") (js "processing")
| succeeded : transition (js "processing") (js "completed")
| broke : transition (js "processing") (js "failed").

(** [evolves a b]: status [b] is [a] or lies ahead of it in the lifecycle. *)
Inductive evolves : jsstring -> jsstring -> Prop :=
| evolves_refl (a : jsstring) : evolves a a
| evolves_step (a b c : jsstring) : transition a b -> evolves b c -> evolves a c.

Definition terminal (status : jsstring) : Prop :=
  status = js "completed" \/ status = js "failed".

(** The job that was added [k] submissions after the oldest one. New jobs
    go to the head of the list, so a job keeps its distance from the end. *)
Definition job_from_end (js_ : list Job.t) (k : nat) : option Job.t :=
  nth_error (rev js_) k.

(** The number of jobs whose status equals [status], counted the way the
    specification words it (by equality of statuses); [render] computes its
    counters with [filter], [===] and [length] instead. *)
Fixpoint number_with_status (status : jsstring) (l : list Job.t) : nat :=
  match l with
  | [] => 0
  | job :: l' =>
      if list_eq_dec N.eq_dec (Job.status job) status
      then S (number_with_status status l')
      else number_with_status status l'
  end.

(** The world after a timer callback that closed over [prompt] has run with
    [Date.now()] reading [now]. *)
Definition resolve (prompt : jsstring) (now : Z) (w : World) : World :=
  snd (timeout_callback prompt (with_wall now w)).

(** What every reachable world satisfies: before the mount effect the page
    is in its initial state; afterwards it is loaded, and a timer is pending
    exactly while [isCreatingJob] is set. *)
Definition consistent (w : World) : Prop :=
  (effect_pending w = true -> ui w = initial_state /\ timers w = [])
  /\ (effect_pending w = false -> loading (ui w) = false)
  /\ (isCreatingJob (ui w) = false -> timers w = [])
  /\ (isCreatingJob (ui w) = true -> exists t, timers w = [t]).

(* ================================================================== *)
(** ** Traces *)

(** The job object built by the timer callback when [Date.now()] reads
    [now] (the [newJob] of the source). *)
Definition created_job (now : Z) : Job.t :=
  Job.mk (js "job_" ++ Number_toString now)
         (js "content_creation") (js "completed").

(** The [Date.now()] readings of the timer expiries of a trace, oldest
    first. *)
Fixpoint fire_times (es : list Event) : list Z :=
  match es with
  | [] => []
  | TimerFires now :: es' => now :: fire_times es'
  | _ :: es' => fire_times es'
  end.

(** The number of clicks on the create button in a trace. *)
Fixpoint clicks (es : list Event) : nat :=
  match es with
  | [] => 0
  | Click :: es' => S (clicks es')
  | _ :: es' => clicks es'
  end.

(** The jobs the page holds before any submission has resolved: none
    until the mount effect has run, the mock jobs afterwards. *)
Definition fetched_jobs (w : World) : list Job.t :=
  if effect_pending w then [] else mockJobs.

(** While a timer is pending, its closure holds the prompt that is still
    in the input, that prompt is not blank, and the timer is due within the
    next 2000 ms. *)
Definition tracked (w : World) : Prop :=
  forall t, In t (timers w) ->
    callback t = createJob_timeout (jobPrompt (ui w))
    /\ trim (jobPrompt (ui w)) <> []
    /\ (due t <= clock w + 2000)%N.

(** [try { body } catch (error) { console.error(...) } finally
    { setLoading(false) }]: the error handling of [fetchData] around an
    arbitrary retrieval. *)
Definition guarded_fetch (body : Eff unit) : Eff unit :=
  try_catch_finally body
    (fun error => console_error (js "Error fetching data:") error)
    (setLoading false).

(** The ways a step is taken in a consistent world, one per handler path. *)
Inductive happens : Event -> World -> World -> Prop :=
| happens_mount (w : World) :
    effect_pending w = true -> ui w = initial_state -> timers w = [] ->
    happens Mount w (snd (fetchData (effect_done w)))
| happens_change (value : jsstring) (w : World) :
    effect_pending w = false -> loading (ui w) = false ->
    isCreatingJob (ui w) = false -> timers w = [] ->
    happens (Change value) w (snd (setJobPrompt value w))
| happens_rejected (w : World) :
    effect_pending w = false -> loading (ui w) = false ->
    isCreatingJob (ui w) = false -> timers w = [] ->
    trim (jobPrompt (ui w)) = [] ->
    happens Click w (snd (alert validation_message w))
| happens_accepted (w : World) :
    effect_pending w = false -> loading (ui w) = false ->
    isCreatingJob (ui w) = false -> timers w = [] ->
    trim (jobPrompt (ui w)) <> [] ->
    happens Click w
      (snd ((setIsCreatingJob true ;;
             setTimeout (createJob_timeout (jobPrompt (ui w))) 2000) w))
| happens_tick (ms : N) (w : World) :
    happens (Tick ms) w (advance ms w)
| happens_resolved (now : Z) (prompt : jsstring) (d : N) (w : World) :
    effect_pending w = false -> loading (ui w) = false ->
    isCreatingJob (ui w) = true ->
    timers w = [{| callback := createJob_timeout prompt; due := d |}] ->
    (d <= clock w)%N ->
    happens (TimerFires now) w (resolve prompt now (with_timers [] w)).

(* ================================================================== *)
(** ** Facts about the JavaScript fragments *)

Section Strings.

Lemma strict_eq_refl (a : jsstring) : strict_eq a a = true.
Proof.
  induction a as [|x a IH]; cbn; [reflexivity|].
  now rewrite N.eqb_refl, IH.
Qed.

Lemma strict_eq_true (a b : jsstring) : strict_eq a b = true -> a = b.
Proof.
  revert b; induction a as [|x a IH]; intros [|y b]; cbn; try discriminate.
  - reflexivity.
  - intros H. apply andb_true_iff in H as [Hx Hab].
    apply N.eqb_eq in Hx. f_equal; auto.
Qed.

Lemma strict_eq_iff (a b : jsstring) : strict_eq a b = true <-> a = b.
Proof.
  split; [apply strict_eq_true | intros ->; apply strict_eq_refl].
Qed.

Lemma strict_eq_false (a b : jsstring) : a <> b -> strict_eq a b = false.
Proof.
  intros H. destruct (strict_eq a b) eqn:E; [|reflexivity].
  now apply strict_eq_true in E.
Qed.

Lemma trimStart_cases (s : jsstring) :
  trimStart s = []
  \/ exists c r, trimStart s = c :: r /\ is_white_space c = false.
Proof.
  induction s as [|c s IH]; cbn [trimStart]; [now left|].
  destruct (is_white_space c) eqn:E; [exact IH|].
  right; now exists c, s.
Qed.

Lemma trimStart_nil_iff (s : jsstring) :
  trimStart s = [] <-> forallb is_white_space s = true.
Proof.
  induction s as [|c s IH]; cbn [trimStart forallb]; [tauto|].
  destruct (is_white_space c); cbn [andb]; [exact IH|].
  split; discriminate.
Qed.

Lemma forallb_rev (f : code_unit -> bool) (s : jsstring) :
  forallb f (rev s) = forallb f s.
Proof.
  induction s as [|c s IH]; cbn [rev forallb]; [reflexivity|].
  rewrite forallb_app, IH. cbn [forallb].
  now rewrite andb_true_r, andb_comm.
Qed.

(** [trim] leaves nothing exactly when every unit is white space. *)
Lemma trim_nil_iff (s : jsstring) :
  trim s = [] <-> forallb is_white_space s = true.
Proof.
  unfold trim, trimEnd. split.
  - intros H.
    assert (H1 : trimStart (rev (trimStart s)) = []).
    { destruct (trimStart (rev (trimStart s))) as [|x l];
        [reflexivity|].
      cbn [rev] in H. now destruct (rev l). }
    apply trimStart_nil_iff in H1. rewrite forallb_rev in H1.
    destruct (trimStart_cases s) as [E | (c & r & E & Hc)].
    + now apply trimStart_nil_iff.
    + rewrite E in H1. cbn [forallb] in H1. rewrite Hc in H1. discriminate.
  - intros H. apply trimStart_nil_iff in H. now rewrite H.
Qed.

Lemma truthy_false_iff (s : jsstring) : truthy s = false <-> s = [].
Proof. destruct s; cbn; split; congruence. Qed.

Lemma N_of_ascii_inj (a b : ascii) : N_of_ascii a = N_of_ascii b -> a = b.
Proof.
  intros H. rewrite <- (ascii_N_embedding a), <- (ascii_N_embedding b).
  now rewrite H.
Qed.

Lemma js_inj (s t : string) : js s = js t -> s = t.
Proof.
  unfold js. intros H.
  rewrite <- (string_of_list_ascii_of_string s),
          <- (string_of_list_ascii_of_string t).
  f_equal.
  revert H. generalize (list_ascii_of_string t) as l2.
  induction (list_ascii_of_string s) as [|a l1 IH]; intros [|b l2];
    cbn [map]; try discriminate; [reflexivity|].
  intros H. injection H as Hab Hl.
  apply N_of_ascii_inj in Hab. f_equal; auto.
Qed.

(** Distinct numbers print differently. *)
Lemma Number_toString_inj (m n : Z) :
  Number_toString m = Number_toString n -> m = n.
Proof.
  unfold Number_toString. intros H.
  apply js_inj in H.
  apply DecimalZ.to_int_inj.
  assert (E : NilEmpty.int_of_string (NilEmpty.string_of_int (Z.to_int m))
              = NilEmpty.int_of_string (NilEmpty.string_of_int (Z.to_int n)))
    by now rewrite H.
  rewrite !NilEmpty.isi in E. now injection E.
Qed.

End Strings.

Section Switch.

Variable R : Type.

Lemma fall_through_returns (cs : list (clause R)) (default : option R) :
  default <> None -> fall_through cs default <> None.
Proof.
  intros Hd. induction cs as [|[l [r|]] cs IH]; cbn; auto; discriminate.
Qed.

(** A switch whose default clause returns never falls off its end. *)
Lemma switch_returns (v : jsstring) (cs : list (clause R)) (default : option R) :
  default <> None -> switch v cs default <> None.
Proof.
  intros Hd. induction cs as [|[l b] cs IH]; cbn [switch]; auto.
  destruct (strict_eq v l); [|exact IH].
  now apply fall_through_returns.
Qed.

(** A value that matches no label reaches the default clause. *)
Lemma switch_default (v : jsstring) (cs : list (clause R)) (default : option R) :
  ~ In v (map (@label R) cs) -> switch v cs default = default.
Proof.
  induction cs as [|[l b] cs IH]; cbn [switch map label In]; intros H;
    [reflexivity|].
  rewrite strict_eq_false by (intros ->; apply H; now left).
  apply IH. intros Hin. apply H. now right.
Qed.

End Switch.

(* ================================================================== *)
(** ** The handlers, run symbolically *)

Section Handlers.

Variable w : World.

Lemma fetchData_runs :
  fetchData w =
  (Normal tt,
   with_ui (fun s => {| agents := mockAgents; jobs := mockJobs; loading := false;
                        jobPrompt := jobPrompt s;
                        isCreatingJob := isCreatingJob s |}) w).
Proof. reflexivity. Qed.

Lemma createJob_blank :
  trim (jobPrompt (ui w)) = [] ->
  createJob w = alert validation_message w.
Proof.
  intros H. unfold createJob, bind, read. now rewrite H.
Qed.

Lemma createJob_accepted :
  trim (jobPrompt (ui w)) <> [] ->
  createJob w =
  (Normal tt,
   with_timers (timers w ++ [{| callback := createJob_timeout (jobPrompt (ui w));
                                due := (clock w + 2000)%N |}])
     (with_ui (fun s => {| agents := agents s; jobs := jobs s;
                           loading := loading s; jobPrompt := jobPrompt s;
                           isCreatingJob := true |}) w)).
Proof.
  intros H. unfold createJob, bind, read.
  destruct (trim (jobPrompt (ui w))) as [|c r]; [congruence|].
  reflexivity.
Qed.

Lemma timeout_callback_runs (prompt : jsstring) :
  timeout_callback prompt w =
  (Normal tt,
   {| ui := {| agents := agents (ui w);
               jobs := Job.mk (js "job_" ++ Number_toString (wall w))
                              (js "content_creation") (js "completed")
                       :: jobs (ui w);
               loading := loading (ui w);
               jobPrompt := [];
               isCreatingJob := false |};
      alerts := alerts w
                ++ [completed_message prompt (content_template prompt)];
      console_errors := console_errors w;
      timers := timers w;
      clock := clock w;
      wall := wall w;
      effect_pending := effect_pending w |}).
Proof. reflexivity. Qed.

End Handlers.

(* ================================================================== *)
(** ** Reachable worlds *)

Lemma consistent_initial : consistent initial_world.
Proof.
  unfold consistent; cbn. repeat split; try discriminate; eauto.
Qed.

Lemma consistent_step (e : Event) (w w' : World) :
  consistent w -> step e w = Some w' -> consistent w'.
Proof.
  intros (Hp & Hl & Hidle & Hbusy) Hstep.
  destruct e as [|value| |ms|now]; cbn [step] in Hstep.
  - (* Mount *)
    destruct (effect_pending w) eqn:Ep; [|discriminate].
    destruct (Hp eq_refl) as [Hui Ht].
    rewrite fetchData_runs in Hstep. injection Hstep as <-.
    unfold consistent; cbn. rewrite Hui, Ht; cbn.
    repeat split; try discriminate; auto.
  - (* Change *)
    unfold render in Hstep.
    destruct (loading (ui w)) eqn:El; [discriminate|].
    cbn [prompt_disabled create_disabled] in Hstep.
    destruct (isCreatingJob (ui w)) eqn:Ec; [discriminate|].
    injection Hstep as <-.
    assert (Ep : effect_pending w = false).
    { destruct (effect_pending w) eqn:Ep; [|reflexivity].
      destruct (Hp eq_refl) as [Hui _]. rewrite Hui in El. discriminate. }
    unfold consistent; cbn. rewrite Ep, El, Ec.
    repeat split; try discriminate; auto.
  - (* Click *)
    unfold render in Hstep.
    destruct (loading (ui w)) eqn:El; [discriminate|].
    cbn [prompt_disabled create_disabled] in Hstep.
    destruct (isCreatingJob (ui w)) eqn:Ec; [discriminate|].
    assert (Ep : effect_pending w = false).
    { destruct (effect_pending w) eqn:Ep; [|reflexivity].
      destruct (Hp eq_refl) as [Hui _]. rewrite Hui in El. discriminate. }
    destruct (list_eq_dec N.eq_dec (trim (jobPrompt (ui w))) []) as [Hb|Hb].
    + rewrite (createJob_blank _ Hb) in Hstep. injection Hstep as <-.
      unfold consistent; cbn. rewrite Ep, El, Ec.
      repeat split; try discriminate; auto.
    + rewrite (createJob_accepted _ Hb) in Hstep. injection Hstep as <-.
      unfold consistent; cbn. rewrite Ep, El, (Hidle eq_refl).
      repeat split; try discriminate; auto.
      intros _. eexists. reflexivity.
  - (* Tick *)
    injection Hstep as <-. unfold consistent; cbn. tauto.
  - (* TimerFires *)
    destruct (timers w) as [|t rest] eqn:Et; [discriminate|].
    destruct (due t <=? clock w)%N; [|discriminate].
    destruct (isCreatingJob (ui w)) eqn:Ec;
      [|specialize (Hidle eq_refl); discriminate].
    destruct (Hbusy eq_refl) as [t' Ht']. injection Ht' as -> ->.
    assert (Ep : effect_pending w = false).
    { destruct (effect_pending w) eqn:Ep; [|reflexivity].
      destruct (Hp eq_refl) as [Hui _]. rewrite Hui in Ec. discriminate. }
    destruct (callback t') as [p]. cbn [apply_closure] in Hstep.
    rewrite timeout_callback_runs in Hstep. injection Hstep as <-.
    unfold consistent; cbn. rewrite Ep, (Hl Ep).
    repeat split; try discriminate; auto.
Qed.

Lemma reachable_consistent (w : World) : reachable w -> consistent w.
Proof.
  induction 1 as [|e w w' _ IH Hstep].
  - apply consistent_initial.
  - eapply consistent_step; eauto.
Qed.

Lemma reachable_run (es : list Event) (w w' : World) :
  reachable w -> run es w = Some w' -> reachable w'.
Proof.
  revert w. induction es as [|e es IH]; cbn [run]; intros w Hw Hrun.
  - now injection Hrun as <-.
  - destruct (step e w) as [w1|] eqn:E; [|discriminate].
    eapply IH; [|exact Hrun]. eapply reachable_step; eauto.
Qed.

(* ================================================================== *)
(** ** Status projection: totality, aliasing, the [created] status *)

Lemma case_labels_in_domain : incl case_labels status_domain.
Proof.
  unfold incl, case_labels, status_domain. cbn [In]. intuition.
Qed.

Lemma getStatusBadge_default (status : jsstring) :
  ~ In status case_labels -> getStatusBadge status = Some (fallback_badge status).
Proof.
  intros H. unfold getStatusBadge. now rewrite switch_default.
Qed.

Lemma getStatusIcon_default (status : jsstring) :
  ~ In status case_labels -> getStatusIcon status = Some fallback_icon.
Proof.
  intros H. unfold getStatusIcon. now rewrite switch_default.
Qed.

Lemma getStatusBadge_returns (status : jsstring) :
  exists badge, getStatusBadge status = Some badge.
Proof.
  destruct (getStatusBadge status) as [b|] eqn:E; [now exists b|].
  exfalso. revert E. apply switch_returns. discriminate.
Qed.

Lemma getStatusIcon_returns (status : jsstring) :
  exists i, getStatusIcon status = Some i.
Proof.
  destruct (getStatusIcon status) as [i|] eqn:E; [now exists i|].
  exfalso. revert E. apply switch_returns. discriminate.
Qed.

(** C3. [getStatusBadge] and [getStatusIcon] are total on strings: every
    string yields a badge and an icon (neither function falls off its end);
    each of the seven statuses of the data model yields a badge with a
    non-empty label and an icon; and a string outside the seven yields the
    outline badge whose label is the raw string, with the gray refresh
    icon. *)
Theorem status_projection_total :
  (forall status : jsstring,
      exists badge i,
        getStatusBadge status = Some badge /\ getStatusIcon status = Some i)
  /\ (forall status : jsstring,
         In status status_domain ->
         exists badge i,
           getStatusBadge status = Some badge
           /\ getStatusIcon status = Some i
           /\ children badge <> [])
  /\ (forall status : jsstring,
         ~ In status status_domain ->
         getStatusBadge status = Some (fallback_badge status)
         /\ children (fallback_badge status) = status
         /\ getStatusIcon status = Some fallback_icon).
Proof.
  split; [|split].
  - intros status.
    destruct (getStatusBadge_returns status) as [b Hb].
    destruct (getStatusIcon_returns status) as [i Hi].
    now exists b, i.
  - intros status Hin. unfold status_domain in Hin. cbn [In] in Hin.
    repeat (destruct Hin as [<-|Hin]);
      try (do 2 eexists; repeat split; [vm_compute; reflexivity ..|];
           vm_compute; discriminate).
    contradiction.
  - intros status Hout.
    assert (H : ~ In status case_labels)
      by (intros Hin; apply Hout; now apply case_labels_in_domain).
    repeat split.
    + now apply getStatusBadge_default.
    + now apply getStatusIcon_default.
Qed.

Lemma status_projection_total_witness :
  ~ In (js "paused") status_domain
  /\ getStatusBadge (js "paused") = Some (fallback_badge (js "paused"))
  /\ children (fallback_badge (js "paused")) = js "paused"
  /\ getStatusIcon (js "paused") = Some fallback_icon.
Proof.
  assert (H : ~ In (js "paused") status_domain)
    by (vm_compute; intuition discriminate).
  split; [exact H|].
  exact (proj2 (proj2 status_projection_total) (js "paused") H).
Defined.

(** C8. The projection aliases statuses across the two domains:
    [getStatusIcon] gives 'busy' the icon of 'processing' (the yellow
    clock), 'error' the icon of 'failed' (the red alert circle) and 'ready'
    the icon of 'completed' (the green check); [getStatusBadge] gives 'busy'
    the badge of 'processing' and 'error' the badge of 'failed'. *)
Theorem status_aliasing :
  getStatusIcon (js "busy") = getStatusIcon (js "processing")
  /\ getStatusIcon (js "processing")
     = Some {| icon := Clock; icon_className := js "h-4 w-4 text-yellow-500" |}
  /\ getStatusIcon (js "error") = getStatusIcon (js "failed")
  /\ getStatusIcon (js "failed")
     = Some {| icon := AlertCircle; icon_className := js "h-4 w-4 text-red-500" |}
  /\ getStatusIcon (js "ready") = getStatusIcon (js "completed")
  /\ getStatusIcon (js "completed")
     = Some {| icon := CheckCircle; icon_className := js "h-4 w-4 text-green-500" |}
  /\ getStatusBadge (js "busy") = getStatusBadge (js "processing")
  /\ getStatusBadge (js "processing")
     = Some {| variant := js "secondary";
               badge_className := Some (js "text-yellow-700 bg-yellow-100");
               children := js "Busy" |}
  /\ getStatusBadge (js "error") = getStatusBadge (js "failed")
  /\ getStatusBadge (js "failed")
     = Some {| variant := js "destructive"; badge_className := None;
               children := js "Error" |}.
Proof.
  repeat split; vm_compute; reflexivity.
Qed.

(** C9. 'created' is in the status domain but has no [case] of its own in
    either switch: it gets the outline badge labelled with the raw string
    and the gray refresh icon, which is what any string without a [case]
    gets. *)
Theorem created_is_fallback :
  In (js "created") status_domain
  /\ ~ In (js "created") case_labels
  /\ getStatusBadge (js "created")
     = Some {| variant := js "outline"; badge_className := None;
               children := js "created" |}
  /\ getStatusIcon (js "created")
     = Some {| icon := RefreshCw; icon_className := js "h-4 w-4 text-gray-500" |}
  /\ (forall status : jsstring,
         ~ In status case_labels ->
         getStatusBadge status
         = Some {| variant := js "outline"; badge_className := None;
                   children := status |}
         /\ getStatusIcon status = getStatusIcon (js "created")).
Proof.
  assert (Hc : ~ In (js "created") case_labels)
    by (vm_compute; intuition discriminate).
  split; [vm_compute; tauto|].
  split; [exact Hc|].
  split; [exact (getStatusBadge_default Hc)|].
  split; [exact (getStatusIcon_default Hc)|].
  intros status H. split.
  - exact (getStatusBadge_default H).
  - now rewrite (getStatusIcon_default H), (getStatusIcon_default Hc).
Qed.

Lemma created_is_fallback_witness :
  ~ In (js "archived") case_labels
  /\ getStatusBadge (js "archived")
     = Some {| variant := js "outline"; badge_className := None;
               children := js "archived" |}
  /\ getStatusIcon (js "archived") = getStatusIcon (js "created").
Proof.
  assert (H : ~ In (js "archived") case_labels)
    by (vm_compute; intuition discriminate).
  split; [exact H|].
  exact (proj2 (proj2 (proj2 (proj2 created_is_fallback))) (js "archived") H).
Defined.

(* ================================================================== *)
(** ** Initial load *)

Lemma filter_counts (status : jsstring) (l : list Job.t) :
  List.length (filter (fun job => strict_eq (Job.status job) status) l)
  = number_with_status status l.
Proof.
  induction l as [|job l IH]; cbn [filter number_with_status]; [reflexivity|].
  destruct (list_eq_dec N.eq_dec (Job.status job) status) as [E|E].
  - rewrite E, strict_eq_refl. cbn [List.length]. now rewrite IH.
  - now rewrite (strict_eq_false E).
Qed.

Lemma render_loaded (s : State) :
  loading s = false -> exists d, render s = DashboardView d.
Proof.
  intros H. unfold render. rewrite H. eexists. reflexivity.
Qed.

Lemma pending_is_initial (w : World) :
  reachable w -> effect_pending w = true -> ui w = initial_state.
Proof.
  intros Hr Hp. now destruct (reachable_consistent Hr) as [H _]; apply H.
Qed.

(** C5. The page first shows the loading indicator and keeps showing it in
    every reachable world in which the mount effect has not run; only that
    effect ends the wait. Once [fetchData] has run, the dashboard is shown
    with the 4 mock agents and the 3 mock jobs, 'Completed' reads 2 and
    'Active Jobs' reads 1; from then on the dashboard is always shown. In
    every state the two counters are the numbers of jobs whose status equals
    'completed' and 'processing'. *)
Theorem initial_load :
  render (ui initial_world) = LoadingView
  /\ (forall w : World,
         reachable w -> effect_pending w = true ->
         render (ui w) = LoadingView
         /\ (forall e w', step e w = Some w' ->
                          e = Mount \/ effect_pending w' = true)
         /\ exists w' d,
             step Mount w = Some w'
             /\ effect_pending w' = false
             /\ render (ui w') = DashboardView d
             /\ agents (ui w') = mockAgents
             /\ jobs (ui w') = mockJobs
             /\ List.length (agent_rows d) = 4
             /\ List.length (job_rows d) = 3
             /\ total_agents d = 4
             /\ completed_jobs d = 2
             /\ active_jobs d = 1)
  /\ (forall w : World,
         reachable w -> effect_pending w = false ->
         exists d, render (ui w) = DashboardView d)
  /\ (forall (s : State) (d : Dashboard),
         render s = DashboardView d ->
         completed_jobs d = number_with_status (js "completed") (jobs s)
         /\ active_jobs d = number_with_status (js "processing") (jobs s)).
Proof.
  split; [reflexivity|]. split; [|split].
  - intros w Hr Hp.
    pose proof (pending_is_initial Hr Hp) as Hui.
    split; [now rewrite Hui|]. split.
    + intros e w' Hstep.
      destruct e as [|value| |ms|now]; cbn [step] in Hstep.
      * now left.
      * rewrite Hui in Hstep. discriminate.
      * rewrite Hui in Hstep. discriminate.
      * injection Hstep as <-. now right.
      * destruct (reachable_consistent Hr) as [H _].
        destruct (H Hp) as [_ Ht]. rewrite Ht in Hstep. discriminate.
    + cbn [step]. rewrite Hp, fetchData_runs.
      do 2 eexists. split; [reflexivity|].
      cbn. rewrite Hui. repeat split; reflexivity.
  - intros w Hr Hp. apply render_loaded.
    destruct (reachable_consistent Hr) as (_ & H & _). now apply H.
  - intros s d H. unfold render in H.
    destruct (loading s); [discriminate|].
    injection H as <-. cbn [completed_jobs active_jobs].
    now rewrite !filter_counts.
Qed.

Lemma initial_load_witness :
  reachable initial_world
  /\ effect_pending initial_world = true
  /\ render (ui initial_world) = LoadingView
  /\ exists w' d,
      step Mount initial_world = Some w'
      /\ render (ui w') = DashboardView d
      /\ completed_jobs d = 2
      /\ active_jobs d = 1.
Proof.
  split; [exact reachable_initial|]. split; [reflexivity|].
  destruct (proj1 (proj2 initial_load) initial_world
              reachable_initial eq_refl)
    as (Hv & _ & w' & d & Hs & _ & Hd & _ & _ & _ & _ & _ & Hc & Ha).
  split; [exact Hv|]. now exists w', d.
Defined.

(* ================================================================== *)
(** ** Submission: rejection of a blank prompt *)

(** C2. When the prompt is empty or holds only white space, [createJob]
    shows the validation alert and returns normally without touching
    anything else: the React state (jobs, agents, [isCreatingJob], prompt)
    is the same, no timer is scheduled and no time passes. The same holds
    when the call comes from a click on the button. *)
Theorem createJob_rejects_blank (w : World) :
  Forall (fun c => is_white_space c = true) (jobPrompt (ui w)) ->
  exists w',
    createJob w = (Normal tt, w')
    /\ alerts w' = alerts w ++ [validation_message]
    /\ ui w' = ui w
    /\ jobs (ui w') = jobs (ui w)
    /\ agents (ui w') = agents (ui w)
    /\ isCreatingJob (ui w') = isCreatingJob (ui w)
    /\ timers w' = timers w
    /\ clock w' = clock w
    /\ console_errors w' = console_errors w
    /\ (forall w'', step Click w = Some w'' -> w'' = w').
Proof.
  intros Hws.
  assert (Hb : trim (jobPrompt (ui w)) = []).
  { apply trim_nil_iff, forallb_forall. now apply Forall_forall. }
  rewrite (createJob_blank _ Hb).
  eexists. split; [reflexivity|].
  repeat (split; [reflexivity|]).
  intros w'' Hstep. cbn [step] in Hstep.
  destruct (render (ui w)) as [|d]; [discriminate|].
  destruct (create_disabled d); [discriminate|].
  rewrite (createJob_blank _ Hb) in Hstep. now injection Hstep as <-.
Qed.

Lemma createJob_rejects_blank_witness :
  exists w',
    createJob (snd (setJobPrompt [32; 9; 160]%N initial_world)) = (Normal tt, w')
    /\ alerts w' = [validation_message]
    /\ jobs (ui w') = []
    /\ timers w' = [].
Proof.
  destruct (@createJob_rejects_blank
              (snd (setJobPrompt [32; 9; 160]%N initial_world)))
    as (w' & Hrun & Ha & _ & Hj & _ & _ & Ht & _).
  - cbn. repeat constructor.
  - exists w'. repeat split; assumption.
Defined.

(* ================================================================== *)
(** ** Submission: an accepted prompt *)

Lemma click_runs_createJob (w : World) :
  loading (ui w) = false -> isCreatingJob (ui w) = false ->
  step Click w = Some (snd (createJob w)).
Proof.
  intros Hl Hc. cbn [step]. unfold render. rewrite Hl.
  cbn [create_disabled]. now rewrite Hc.
Qed.

(** C1. A prompt that is non-empty after trimming is accepted, in any
    world: [createJob] returns normally, sets [isCreatingJob] and schedules
    exactly one timer, due 2000 ms later, without touching the job list.
    Whenever the callback of that timer runs, it returns normally and puts
    exactly one new job at the head of the job list, of type
    'content_creation' and status 'completed' (never 'failed'). On the page
    itself (loaded, nothing in flight) a click runs [createJob]; the timer
    cannot fire before its delay has passed, and once at least 2000 ms have
    passed it fires and leaves the old job list behind the one new job. *)
Theorem createJob_accepts (w : World) :
  trim (jobPrompt (ui w)) <> [] ->
  exists w1 t,
    createJob w = (Normal tt, w1)
    /\ timers w1 = timers w ++ [t]
    /\ due t = (clock w + 2000)%N
    /\ callback t = createJob_timeout (jobPrompt (ui w))
    /\ jobs (ui w1) = jobs (ui w)
    /\ agents (ui w1) = agents (ui w)
    /\ isCreatingJob (ui w1) = true
    /\ alerts w1 = alerts w
    /\ (forall (v : World) (now : Z),
           exists v' newJob,
             apply_closure (callback t) (with_wall now v) = (Normal tt, v')
             /\ jobs (ui v') = newJob :: jobs (ui v)
             /\ List.length (jobs (ui v')) = S (List.length (jobs (ui v)))
             /\ Job.status newJob = js "completed"
             /\ Job.type newJob = js "content_creation"
             /\ Job.status newJob <> js "failed")
    /\ (forall (ms : N) (now : Z),
           loading (ui w) = false ->
           isCreatingJob (ui w) = false ->
           timers w = [] ->
           (2000 <= ms)%N ->
           step Click w = Some w1
           /\ in_flight w1 = 1
           /\ step (TimerFires now) w1 = None
           /\ exists w2 newJob,
               run [Tick ms; TimerFires now] w1 = Some w2
               /\ jobs (ui w2) = newJob :: jobs (ui w)
               /\ Job.status newJob = js "completed"
               /\ Job.type newJob = js "content_creation"
               /\ in_flight w2 = 0).
Proof.
  intros Hp.
  assert (Hne : js "completed" <> js "failed") by (vm_compute; discriminate).
  pose proof (createJob_accepted w Hp) as Hrun.
  do 2 eexists. split; [exact Hrun|].
  repeat (split; [reflexivity|]).
  split.
  - intros v now. cbn [callback apply_closure].
    rewrite timeout_callback_runs. do 2 eexists.
    split; [reflexivity|]. repeat (split; [reflexivity|]). exact Hne.
  - intros ms now Hl Hc Ht Hms.
    split; [rewrite (click_runs_createJob w Hl Hc), Hrun; reflexivity|].
    split; [unfold in_flight; cbn [with_timers timers]; now rewrite Ht|].
    split.
    + cbn [step timers with_timers]. rewrite Ht.
      cbn [app due clock with_ui with_timers].
      assert (E : (clock w + 2000 <=? clock w)%N = false)
        by (apply N.leb_gt; lia).
      now rewrite E.
    + cbn [run step timers with_timers advance]. rewrite Ht.
      cbn [app due clock with_ui with_timers advance callback].
      assert (E : (clock w + 2000 <=? clock w + ms)%N = true)
        by (apply N.leb_le; lia).
      rewrite E. cbn [apply_closure]. rewrite timeout_callback_runs.
      do 2 eexists. split; [reflexivity|].
      repeat (split; [reflexivity|]). reflexivity.
Qed.

Lemma createJob_accepts_witness :
  exists w w2 newJob,
    run [Mount; Change (js "Write a tweet about cats")] initial_world = Some w
    /\ run [Mount; Change (js "Write a tweet about cats");
            Click; Tick 2000; TimerFires 1758369600000] initial_world = Some w2
    /\ jobs (ui w2) = newJob :: jobs (ui w)
    /\ Job.status newJob = js "completed"
    /\ Job.type newJob = js "content_creation".
Proof.
  pose (w := snd (setJobPrompt (js "Write a tweet about cats")
                    (snd (fetchData (effect_done initial_world))))).
  assert (Hp : trim (jobPrompt (ui w)) <> []) by (vm_compute; discriminate).
  destruct (createJob_accepts w Hp) as (w1 & t & _ & _ & _ & _ & _ & _ & _ & _ & _ & Hpage).
  assert (Hms : (2000 <= 2000)%N) by (vm_compute; discriminate).
  destruct (Hpage 2000%N 1758369600000%Z eq_refl eq_refl eq_refl Hms)
    as (Hclick & _ & _ & w2 & newJob & Hrun & Hjobs & Hst & Hty & _).
  exists w, w2, newJob.
  split; [reflexivity|]. split.
  - change (run [Mount; Change (js "Write a tweet about cats");
                 Click; Tick 2000; TimerFires 1758369600000] initial_world)
      with (match step Click w with
            | Some w' => run [Tick 2000; TimerFires 1758369600000] w'
            | None => None
            end).
    rewrite Hclick. exact Hrun.
  - repeat split; assumption.
Defined.

(* ================================================================== *)
(** ** Resolution: what the timer callback changes *)

Lemma job_from_end_grows (added l : list Job.t) (k : nat) (j : Job.t) :
  job_from_end l k = Some j -> job_from_end (added ++ l) k = Some j.
Proof.
  unfold job_from_end. intros H. rewrite rev_app_distr, nth_error_app1; auto.
  apply nth_error_Some. congruence.
Qed.

Lemma timer_step_runs_callback (w w' : World) (now : Z) :
  step (TimerFires now) w = Some w' ->
  exists prompt d rest,
    timers w = {| callback := createJob_timeout prompt; due := d |} :: rest
    /\ (d <= clock w)%N
    /\ w' = resolve prompt now (with_timers rest w).
Proof.
  cbn [step]. intros H.
  destruct (timers w) as [|[[prompt] d] rest]; [discriminate|].
  cbn [due callback apply_closure] in H.
  destruct (d <=? clock w)%N eqn:E; [|discriminate].
  exists prompt, d, rest. split; [reflexivity|].
  split; [now apply N.leb_le|].
  unfold resolve. now injection H as <-.
Qed.

(** C10. When a submission resolves, the React state changes in exactly
    three cells: the job list gets one new job at its head, the prompt
    becomes the empty string and [isCreatingJob] becomes false. The agents
    and the loading flag are untouched, and every job that was in the list
    is still there, unchanged, behind the new one. *)
Theorem resolution_frame (w w' : World) (now : Z) :
  step (TimerFires now) w = Some w' ->
  exists newJob,
    ui w' = {| agents := agents (ui w);
               jobs := newJob :: jobs (ui w);
               loading := loading (ui w);
               jobPrompt := [];
               isCreatingJob := false |}
    /\ agents (ui w') = agents (ui w)
    /\ jobPrompt (ui w') = []
    /\ isCreatingJob (ui w') = false
    /\ tl (jobs (ui w')) = jobs (ui w)
    /\ (forall k j, job_from_end (jobs (ui w)) k = Some j ->
                    job_from_end (jobs (ui w')) k = Some j).
Proof.
  intros Hstep.
  destruct (timer_step_runs_callback _ _ Hstep)
    as (prompt & d & rest & _ & _ & ->).
  unfold resolve. rewrite timeout_callback_runs. cbn [snd ui].
  eexists. split; [reflexivity|].
  cbn [agents jobs jobPrompt isCreatingJob tl with_wall with_timers ui].
  repeat (split; [reflexivity|]).
  intros k j H.
  now apply (job_from_end_grows [_]).
Qed.

Lemma resolution_frame_witness :
  exists w w' newJob,
    step (TimerFires 42) w = Some w'
    /\ agents (ui w) = mockAgents
    /\ agents (ui w') = mockAgents
    /\ jobs (ui w') = newJob :: mockJobs
    /\ jobPrompt (ui w') = []
    /\ isCreatingJob (ui w') = false.
Proof.
  pose (w := advance 2000
               (snd (createJob
                       (snd (setJobPrompt (js "hello")
                               (snd (fetchData (effect_done initial_world)))))))).
  pose (w' := resolve (js "hello") 42 (with_timers [] w)).
  assert (Hstep : step (TimerFires 42) w = Some w') by reflexivity.
  destruct (resolution_frame w 42 Hstep)
    as (newJob & Hui & Hag & Hp & Hc & _).
  exists w, w', newJob.
  split; [exact Hstep|]. split; [reflexivity|].
  split; [rewrite Hag; reflexivity|].
  split; [rewrite Hui; reflexivity|].
  split; assumption.
Defined.

(* ================================================================== *)
(** ** Job identifiers *)

(** C7. The job created by a resolving submission has the identifier
    'job_' followed by the decimal digits of [Date.now()] as read in the
    timer callback, which is where the job is created. Jobs created at
    different readings get different identifiers; jobs created at the same
    reading get the same identifier, whatever their prompts and whatever
    the worlds they are created in. *)
Theorem job_id_scheme :
  (forall (prompt : jsstring) (now : Z) (w : World),
      jobs (ui (resolve prompt now w))
      = Job.mk (js "job_" ++ Number_toString now)
               (js "content_creation") (js "completed")
        :: jobs (ui w))
  /\ (forall (p1 p2 : jsstring) (t1 t2 : Z) (w1 w2 : World) (j1 j2 : Job.t),
         hd_error (jobs (ui (resolve p1 t1 w1))) = Some j1 ->
         hd_error (jobs (ui (resolve p2 t2 w2))) = Some j2 ->
         (t1 <> t2 -> Job.id j1 <> Job.id j2)
         /\ (t1 = t2 -> Job.id j1 = Job.id j2)).
Proof.
  split.
  - intros prompt now w. unfold resolve. now rewrite timeout_callback_runs.
  - intros p1 p2 t1 t2 w1 w2 j1 j2.
    unfold resolve. rewrite !timeout_callback_runs.
    cbn [snd ui jobs hd_error with_wall wall].
    intros H1 H2. injection H1 as <-. injection H2 as <-.
    cbn [Job.id]. split.
    + intros Hne Heq. apply Hne.
      apply Number_toString_inj, (app_inv_head (js "job_")). exact Heq.
    + now intros ->.
Qed.

Lemma job_id_scheme_witness :
  exists j1 j2 j3,
    hd_error (jobs (ui (resolve (js "a") 1000 initial_world))) = Some j1
    /\ hd_error (jobs (ui (resolve (js "b") 1001 initial_world))) = Some j2
    /\ hd_error (jobs (ui (resolve (js "c") 1000 initial_world))) = Some j3
    /\ Job.id j1 <> Job.id j2
    /\ Job.id j1 = Job.id j3.
Proof.
  do 3 eexists.
  split; [reflexivity|]. split; [reflexivity|]. split; [reflexivity|].
  split.
  - refine (proj1 (proj2 job_id_scheme (js "a") (js "b") 1000%Z 1001%Z
                     initial_world initial_world _ _ eq_refl eq_refl) _).
    discriminate.
  - exact (proj2 (proj2 job_id_scheme (js "a") (js "c") 1000%Z 1000%Z
                    initial_world initial_world _ _ eq_refl eq_refl) eq_refl).
Defined.

(* ================================================================== *)
(** ** The single-flight guard *)

Lemma busy_controls_refuse (w : World) :
  isCreatingJob (ui w) = true ->
  step Click w = None /\ forall value, step (Change value) w = None.
Proof.
  intros Hc. cbn [step]. unfold render.
  destruct (loading (ui w)); [now split|].
  cbn [create_disabled prompt_disabled]. rewrite Hc. now split.
Qed.

Lemma busy_step (e : Event) (w w' : World) :
  consistent w -> isCreatingJob (ui w) = true -> step e w = Some w' ->
  (isCreatingJob (ui w') = false <-> exists now, e = TimerFires now).
Proof.
  intros (Hp & _) Hc Hstep.
  destruct e as [|value| |ms|now].
  - cbn [step] in Hstep. destruct (effect_pending w) eqn:Ep; [|discriminate].
    destruct (Hp eq_refl) as [Hui _]. rewrite Hui in Hc. discriminate.
  - destruct (busy_controls_refuse w Hc) as [_ H]. rewrite H in Hstep.
    discriminate.
  - destruct (busy_controls_refuse w Hc) as [H _]. rewrite H in Hstep.
    discriminate.
  - cbn [step] in Hstep. injection Hstep as <-.
    cbn [advance ui]. rewrite Hc. split; [discriminate|].
    intros [now H]. discriminate.
  - destruct (timer_step_runs_callback _ _ Hstep)
      as (prompt & d & rest & _ & _ & ->).
    unfold resolve. rewrite timeout_callback_runs. cbn [snd ui isCreatingJob].
    split; [now exists now | reflexivity].
Qed.

Lemma idle_step (e : Event) (w w' : World) :
  consistent w -> isCreatingJob (ui w) = false -> step e w = Some w' ->
  (isCreatingJob (ui w') = true
   <-> e = Click /\ trim (jobPrompt (ui w)) <> []).
Proof.
  intros (_ & _ & Hidle & _) Hc Hstep.
  destruct e as [|value| |ms|now]; cbn [step] in Hstep.
  - destruct (effect_pending w); [|discriminate].
    rewrite fetchData_runs in Hstep. injection Hstep as <-.
    cbn [with_ui effect_done ui isCreatingJob]. rewrite Hc.
    split; [discriminate | intros [H _]; discriminate].
  - destruct (render (ui w)) as [|d]; [discriminate|].
    destruct (prompt_disabled d); [discriminate|].
    unfold setJobPrompt in Hstep. injection Hstep as <-.
    cbn [with_ui ui isCreatingJob]. rewrite Hc.
    split; [discriminate | intros [H _]; discriminate].
  - destruct (render (ui w)) as [|d]; [discriminate|].
    destruct (create_disabled d); [discriminate|].
    destruct (list_eq_dec N.eq_dec (trim (jobPrompt (ui w))) []) as [Hb|Hb].
    + rewrite (createJob_blank _ Hb) in Hstep.
      unfold alert in Hstep. injection Hstep as <-. cbn [ui]. rewrite Hc.
      split; [discriminate | intros [_ H]; contradiction].
    + rewrite (createJob_accepted _ Hb) in Hstep. injection Hstep as <-.
      cbn [with_timers with_ui ui isCreatingJob]. now split.
  - injection Hstep as <-. cbn [advance ui]. rewrite Hc.
    split; [discriminate | intros [H _]; discriminate].
  - rewrite (Hidle Hc) in Hstep. discriminate.
Qed.

(** C4. In every reachable world at most one submission is in flight, and
    one is in flight exactly while [isCreatingJob] is true. The prompt input
    and the create button are disabled exactly while the flag is true, and
    while it is true neither a click nor an input change is taken. The flag
    rises exactly on a click with a prompt that is non-empty after trimming,
    and it falls exactly when the timer of the submission in flight fires. *)
Theorem single_flight (w : World) :
  reachable w ->
  in_flight w <= 1
  /\ (isCreatingJob (ui w) = true <-> in_flight w = 1)
  /\ (forall d, render (ui w) = DashboardView d ->
                prompt_disabled d = isCreatingJob (ui w)
                /\ create_disabled d = isCreatingJob (ui w))
  /\ (isCreatingJob (ui w) = true ->
      step Click w = None /\ forall value, step (Change value) w = None)
  /\ (forall e w', step e w = Some w' -> isCreatingJob (ui w) = false ->
                   (isCreatingJob (ui w') = true
                    <-> e = Click /\ trim (jobPrompt (ui w)) <> []))
  /\ (forall e w', step e w = Some w' -> isCreatingJob (ui w) = true ->
                   (isCreatingJob (ui w') = false
                    <-> exists now, e = TimerFires now)).
Proof.
  intros Hr. pose proof (reachable_consistent Hr) as Hc.
  pose proof Hc as (Hp & Hl & Hidle & Hbusy).
  unfold in_flight.
  split; [|split; [|split; [|split; [|split]]]].
  - destruct (isCreatingJob (ui w)).
    + destruct (Hbusy eq_refl) as [t ->]. cbn. lia.
    + rewrite (Hidle eq_refl). cbn. lia.
  - destruct (isCreatingJob (ui w)).
    + destruct (Hbusy eq_refl) as [t ->]. now split.
    + rewrite (Hidle eq_refl). cbn. split; discriminate.
  - intros d Hd. unfold render in Hd.
    destruct (loading (ui w)); [discriminate|].
    injection Hd as <-. now split.
  - apply busy_controls_refuse.
  - intros e w' Hstep Hflag. exact (@idle_step e w w' Hc Hflag Hstep).
  - intros e w' Hstep Hflag. exact (@busy_step e w w' Hc Hflag Hstep).
Qed.

Lemma single_flight_witness :
  exists w,
    run [Mount; Change (js "Write a tweet about cats"); Click; Tick 500]
        initial_world = Some w
    /\ in_flight w = 1
    /\ isCreatingJob (ui w) = true
    /\ step Click w = None.
Proof.
  eexists. split; [reflexivity|].
  match goal with
  | |- in_flight ?w = 1 /\ _ =>
      assert (Hr : reachable w)
        by (apply (@reachable_run
                     [Mount; Change (js "Write a tweet about cats");
                      Click; Tick 500] initial_world);
            [exact reachable_initial | reflexivity]);
      destruct (single_flight Hr) as (_ & Hiff & _ & Hrefuse & _)
  end.
  assert (Hflag : isCreatingJob
                    (ui (advance 500
                           (snd (createJob
                                   (snd (setJobPrompt
                                           (js "Write a tweet about cats")
                                           (snd (fetchData
                                                   (effect_done initial_world))))))))) = true)
    by reflexivity.
  split; [exact (proj1 Hiff Hflag)|].
  split; [exact Hflag|].
  exact (proj1 (Hrefuse Hflag)).
Defined.

(* ================================================================== *)
(** ** The job lifecycle *)

Lemma terminal_stays (a b : jsstring) : terminal a -> evolves a b -> b = a.
Proof.
  intros Ht Hev. destruct Hev as [a|a b c Hab _]; [reflexivity|].
  exfalso. destruct Ht as [-> | ->]; inversion Hab.
Qed.

(** The lifecycle has no way back: nothing leads out of 'completed' or
    'failed', and 'processing' does not lead to 'created'. *)
Lemma no_way_back :
  ~ evolves (js "completed") (js "processing")
  /\ ~ evolves (js "failed") (js "processing")
  /\ ~ evolves (js "processing") (js "created").
Proof.
  repeat split; intros H.
  - apply (terminal_stays (or_introl eq_refl)) in H. discriminate.
  - apply (terminal_stays (or_intror eq_refl)) in H. discriminate.
  - inversion H as [|? b ? Hpb Hbc]; subst.
    inversion Hpb; subst.
    + apply (terminal_stays (or_introl eq_refl)) in Hbc. discriminate.
    + apply (terminal_stays (or_intror eq_refl)) in Hbc. discriminate.
Qed.

Lemma step_keeps_jobs (e : Event) (w w' : World) :
  consistent w -> step e w = Some w' ->
  exists added, jobs (ui w') = added ++ jobs (ui w).
Proof.
  intros (Hp & _) Hstep.
  destruct e as [|value| |ms|now]; cbn [step] in Hstep.
  - destruct (effect_pending w); [|discriminate].
    destruct (Hp eq_refl) as [Hui _].
    rewrite fetchData_runs in Hstep. injection Hstep as <-.
    exists mockJobs. cbn [with_ui effect_done ui jobs]. rewrite Hui.
    cbn [initial_state jobs]. now rewrite app_nil_r.
  - destruct (render (ui w)) as [|d]; [discriminate|].
    destruct (prompt_disabled d); [discriminate|].
    unfold setJobPrompt in Hstep. injection Hstep as <-. now exists [].
  - destruct (render (ui w)) as [|d]; [discriminate|].
    destruct (create_disabled d); [discriminate|].
    destruct (list_eq_dec N.eq_dec (trim (jobPrompt (ui w))) []) as [Hb|Hb].
    + rewrite (createJob_blank _ Hb) in Hstep.
      unfold alert in Hstep. injection Hstep as <-. now exists [].
    + rewrite (createJob_accepted _ Hb) in Hstep. injection Hstep as <-.
      now exists [].
  - injection Hstep as <-. now exists [].
  - destruct (timer_step_runs_callback _ _ Hstep)
      as (prompt & d & rest & _ & _ & ->).
    unfold resolve. rewrite timeout_callback_runs. cbn [snd ui jobs].
    eexists [_]. reflexivity.
Qed.

Lemma run_keeps_jobs (es : list Event) (w w' : World) :
  reachable w -> run es w = Some w' ->
  exists added, jobs (ui w') = added ++ jobs (ui w).
Proof.
  revert w. induction es as [|e es IH]; cbn [run]; intros w Hr Hrun.
  - injection Hrun as <-. now exists [].
  - destruct (step e w) as [w1|] eqn:E; [|discriminate].
    destruct (step_keeps_jobs e (reachable_consistent Hr) E) as [a1 H1].
    destruct (IH w1 (@reachable_step e w w1 Hr E) Hrun) as [a2 H2].
    exists (a2 ++ a1). now rewrite H2, H1, app_assoc.
Qed.

(** C6. Every job in the list of a reachable world keeps its place, its
    identifier and its status through any sequence of events (mount fetch,
    input, clicks on create, timers): so its status never moves backward in
    created -> processing -> {completed | failed}, and a job that is
    'completed' or 'failed' stays so. *)
Theorem job_lifecycle_monotone
  (w w' : World) (es : list Event) (k : nat) (j : Job.t) :
  reachable w ->
  run es w = Some w' ->
  job_from_end (jobs (ui w)) k = Some j ->
  exists j',
    job_from_end (jobs (ui w')) k = Some j'
    /\ Job.id j' = Job.id j
    /\ evolves (Job.status j) (Job.status j')
    /\ (evolves (Job.status j') (Job.status j) ->
        Job.status j' = Job.status j)
    /\ (terminal (Job.status j) -> Job.status j' = Job.status j).
Proof.
  intros Hr Hrun Hj.
  destruct (run_keeps_jobs es Hr Hrun) as [added Hadd].
  exists j. rewrite Hadd.
  split; [now apply job_from_end_grows|].
  split; [reflexivity|].
  split; [apply evolves_refl|].
  now split.
Qed.

Lemma job_lifecycle_monotone_witness :
  exists w w' j',
    run [Mount] initial_world = Some w
    /\ run [Change (js "Write a tweet about cats"); Click; Tick 2000;
            TimerFires 1758369600000] w = Some w'
    /\ job_from_end (jobs (ui w)) 1
       = Some (Job.mk (js "job_002") (js "video_generation") (js "processing"))
    /\ job_from_end (jobs (ui w')) 1 = Some j'
    /\ Job.id j' = js "job_002"
    /\ evolves (js "processing") (Job.status j').
Proof.
  pose (w := snd (fetchData (effect_done initial_world))).
  assert (Hr : reachable w)
    by (apply (@reachable_run [Mount] initial_world);
        [exact reachable_initial | reflexivity]).
  pose (es := [Change (js "Write a tweet about cats"); Click; Tick 2000;
               TimerFires 1758369600000]).
  destruct (run es w) as [w'|] eqn:Hrun; [|vm_compute in Hrun; discriminate].
  destruct (@job_lifecycle_monotone w w' es 1
              (Job.mk (js "job_002") (js "video_generation") (js "processing"))
              Hr Hrun eq_refl)
    as (j' & Hj' & Hid & Hev & _).
  exists w, w', j'.
  split; [reflexivity|]. split; [exact Hrun|]. split; [reflexivity|].
  split; [exact Hj'|]. split; [exact Hid | exact Hev].
Defined.


(* ================================================================== *)
(** ** Steps and traces *)

Lemma pending_not_loaded (w : World) :
  consistent w -> loading (ui w) = false -> effect_pending w = false.
Proof.
  intros (Hp & _) Hl. destruct (effect_pending w); [|reflexivity].
  destruct (Hp eq_refl) as [Hui _]. rewrite Hui in Hl. discriminate.
Qed.

Lemma step_happens (e : Event) (w w' : World) :
  consistent w -> step e w = Some w' -> happens e w w'.
Proof.
  intros Hc Hstep. pose proof Hc as (Hp & Hl & Hidle & Hbusy).
  destruct e as [|value| |ms|now]; cbn [step] in Hstep.
  - destruct (effect_pending w) eqn:Ep; [|discriminate].
    destruct (Hp eq_refl) as [Hui Ht].
    injection Hstep as <-. now constructor.
  - unfold render in Hstep.
    destruct (loading (ui w)) eqn:El; [discriminate|].
    cbn [prompt_disabled] in Hstep.
    destruct (isCreatingJob (ui w)) eqn:Ef; [discriminate|].
    injection Hstep as <-.
    constructor; auto using pending_not_loaded.
  - unfold render in Hstep.
    destruct (loading (ui w)) eqn:El; [discriminate|].
    cbn [create_disabled] in Hstep.
    destruct (isCreatingJob (ui w)) eqn:Ef; [discriminate|].
    destruct (list_eq_dec N.eq_dec (trim (jobPrompt (ui w))) []) as [Hb|Hb].
    + rewrite (createJob_blank _ Hb) in Hstep. injection Hstep as <-.
      constructor; auto using pending_not_loaded.
    + assert (E : createJob w
                  = (setIsCreatingJob true ;;
                     setTimeout (createJob_timeout (jobPrompt (ui w))) 2000) w).
      { now rewrite (createJob_accepted _ Hb). }
      rewrite E in Hstep. injection Hstep as <-.
      constructor; auto using pending_not_loaded.
  - injection Hstep as <-. constructor.
  - destruct (timer_step_runs_callback _ _ Hstep)
      as (prompt & d & rest & Ht & Hd & ->).
    destruct (isCreatingJob (ui w)) eqn:Ef;
      [|rewrite (Hidle eq_refl) in Ht; discriminate].
    destruct (Hbusy eq_refl) as [t Ht']. rewrite Ht' in Ht.
    injection Ht as -> <-.
    assert (Ep : effect_pending w = false).
    { destruct (effect_pending w) eqn:Ep; [|reflexivity].
      destruct (Hp eq_refl) as [Hui _]. rewrite Hui in Ef. discriminate. }
    apply happens_resolved with (d := d); auto.
Qed.

Lemma run_snoc (es : list Event) (e : Event) (w : World) :
  run (es ++ [e]) w
  = match run es w with Some w' => step e w' | None => None end.
Proof.
  revert w. induction es as [|e0 es IH]; intros w; cbn [app run].
  - now destruct (step e w).
  - destruct (step e0 w) as [w1|]; [apply IH | reflexivity].
Qed.

Lemma reachable_trace (w : World) :
  reachable w -> exists es, run es initial_world = Some w.
Proof.
  induction 1 as [|e w w' _ [es IH] Hstep].
  - now exists [].
  - exists (es ++ [e]). now rewrite run_snoc, IH.
Qed.

Lemma trace_reachable (es : list Event) (w : World) :
  run es initial_world = Some w -> reachable w.
Proof. apply reachable_run. exact reachable_initial. Qed.

(* ================================================================== *)
(** ** The job list as a function of the trace *)

Lemma run_jobs (es : list Event) :
  forall (w w' : World) (J : list Job.t),
    consistent w -> run es w = Some w' ->
    jobs (ui w) = J ++ fetched_jobs w ->
    jobs (ui w')
    = map created_job (rev (fire_times es)) ++ J ++ fetched_jobs w'.
Proof.
  induction es as [|e es IH]; cbn [run]; intros w w' J Hc Hrun HJ.
  - injection Hrun as <-. exact HJ.
  - destruct (step e w) as [w1|] eqn:E; [|discriminate].
    pose proof (consistent_step e Hc E) as Hc1.
    destruct (@step_happens e w w1 Hc E)
      as [w Hp Hui Ht | value w Hp Hl Hf Ht | w Hp Hl Hf Ht Hb
          | w Hp Hl Hf Ht Hb | ms w | now prompt d w Hp Hl Hf Ht Hd];
      cbn [fire_times].
    + assert (J = []) as ->.
      { rewrite Hui in HJ. cbn [initial_state jobs] in HJ.
        symmetry in HJ. now apply app_eq_nil in HJ. }
      apply (IH _ _ [] Hc1 Hrun). rewrite fetchData_runs. reflexivity.
    + apply (IH _ _ J Hc1 Hrun). exact HJ.
    + apply (IH _ _ J Hc1 Hrun). exact HJ.
    + apply (IH _ _ J Hc1 Hrun). exact HJ.
    + apply (IH _ _ J Hc1 Hrun). exact HJ.
    + cbn [rev]. rewrite map_app, <- app_assoc. cbn [map app].
      apply (IH _ _ (created_job now :: J) Hc1 Hrun).
      unfold resolve. rewrite timeout_callback_runs.
      cbn [snd ui jobs with_wall with_timers wall]. rewrite HJ. reflexivity.
Qed.

Lemma jobs_of_trace (es : list Event) (w : World) :
  run es initial_world = Some w ->
  jobs (ui w) = map created_job (rev (fire_times es)) ++ fetched_jobs w.
Proof.
  intros Hrun.
  exact (run_jobs es [] consistent_initial Hrun eq_refl).
Qed.

(** X1. Whatever happens on the page, its job list is determined by the
    timer expiries alone: it holds one job per expiry, newest first, each
    the 'content_creation' / 'completed' job named after the [Date.now()]
    reading of its expiry, followed by the three mock jobs once the mount
    effect has run. Typing, clicks and the passing of time add nothing. *)
Theorem trace_jobs (es : list Event) (w : World) :
  run es initial_world = Some w ->
  jobs (ui w) = map created_job (rev (fire_times es)) ++ fetched_jobs w.
Proof. apply jobs_of_trace. Qed.

Lemma trace_jobs_witness :
  exists w,
    run [Mount; Change (js "cats"); Click; Tick 2500; TimerFires 77;
         Change (js "dogs"); Click; Tick 2000; TimerFires 99]
        initial_world = Some w
    /\ jobs (ui w) = [created_job 99; created_job 77] ++ mockJobs.
Proof.
  eexists. split; [vm_compute; reflexivity|].
  etransitivity.
  - apply (trace_jobs
             [Mount; Change (js "cats"); Click; Tick 2500; TimerFires 77;
              Change (js "dogs"); Click; Tick 2000; TimerFires 99]).
    vm_compute. reflexivity.
  - vm_compute. reflexivity.
Defined.

Lemma created_not_processing (l : list Z) :
  filter (fun job => strict_eq (Job.status job) (js "processing"))
         (map created_job l) = [].
Proof.
  induction l as [|t l IH]; cbn [map filter]; [reflexivity|].
  cbn [created_job Job.status].
  replace (strict_eq (js "completed") (js "processing")) with false
    by (vm_compute; reflexivity).
  exact IH.
Qed.

Lemma created_all_completed (l : list Z) :
  filter (fun job => strict_eq (Job.status job) (js "completed"))
         (map created_job l) = map created_job l.
Proof.
  induction l as [|t l IH]; cbn [map filter]; [reflexivity|].
  cbn [created_job Job.status]. rewrite strict_eq_refl.
  fold (created_job t). now rewrite IH.
Qed.

(** X2. On the loaded page the 'Active Jobs' card always reads 1: a
    submission never shows up as processing, neither while it is in flight
    nor after. 'Completed' reads 2 plus the number of submissions that have
    resolved, and the 'Recent Jobs' card lists 3 rows plus one per resolved
    submission. *)
Theorem counters_of_trace (es : list Event) (w : World) (d : Dashboard) :
  run es initial_world = Some w ->
  render (ui w) = DashboardView d ->
  active_jobs d = 1
  /\ completed_jobs d = 2 + List.length (fire_times es)
  /\ List.length (job_rows d) = 3 + List.length (fire_times es).
Proof.
  intros Hrun Hd.
  pose proof (jobs_of_trace es Hrun) as Hjobs.
  pose proof (reachable_consistent (trace_reachable es Hrun)) as Hc.
  unfold render in Hd. destruct (loading (ui w)) eqn:El; [discriminate|].
  injection Hd as <-. cbn [active_jobs completed_jobs job_rows].
  unfold fetched_jobs in Hjobs. rewrite (pending_not_loaded Hc El) in Hjobs.
  rewrite Hjobs, !filter_app, created_not_processing, created_all_completed.
  rewrite length_map, !length_app, !length_map, length_rev.
  cbn. repeat split; lia.
Qed.

Lemma counters_of_trace_witness :
  exists w d,
    run [Mount; Change (js "cats"); Click; Tick 2500] initial_world = Some w
    /\ render (ui w) = DashboardView d
    /\ isCreatingJob (ui w) = true
    /\ active_jobs d = 1
    /\ completed_jobs d = 2.
Proof.
  do 2 eexists. split; [reflexivity|]. split; [reflexivity|].
  split; [reflexivity|].
  destruct (@counters_of_trace
              [Mount; Change (js "cats"); Click; Tick 2500] _ _
              eq_refl eq_refl) as (Ha & Hc & _).
  split; [exact Ha | exact Hc].
Defined.

(* ================================================================== *)
(** ** What stays true on the page *)

Ltac open_world :=
  unfold resolve;
  rewrite ?fetchData_runs, ?timeout_callback_runs;
  cbn [snd fst bind setJobPrompt alert setIsCreatingJob setTimeout
       with_ui with_timers with_wall advance effect_done
       ui alerts console_errors timers clock wall effect_pending
       agents jobs loading jobPrompt isCreatingJob].

Lemma reachable_quiet (w : World) :
  reachable w ->
  console_errors w = []
  /\ (effect_pending w = false -> agents (ui w) = mockAgents).
Proof.
  induction 1 as [|e w w' Hr [IHc IHa] Hstep].
  - split; [reflexivity | discriminate].
  - destruct (@step_happens e w w' (reachable_consistent Hr) Hstep)
      as [w Hp Hui Ht | value w Hp Hl Hf Ht | w Hp Hl Hf Ht Hb
          | w Hp Hl Hf Ht Hb | ms w | now prompt d w Hp Hl Hf Ht Hd];
      open_world; auto.
Qed.

Lemma reachable_tracked (w : World) : reachable w -> tracked w.
Proof.
  induction 1 as [|e w w' Hr IH Hstep].
  - intros t [].
  - destruct (@step_happens e w w' (reachable_consistent Hr) Hstep)
      as [w Hp Hui Ht | value w Hp Hl Hf Ht | w Hp Hl Hf Ht Hb
          | w Hp Hl Hf Ht Hb | ms w | now prompt d w Hp Hl Hf Ht Hd];
      unfold tracked; open_world.
    + rewrite Ht. intros t [].
    + rewrite Ht. intros t [].
    + rewrite Ht. intros t [].
    + rewrite Ht. cbn [app]. intros t [<- | []]. cbn [callback due].
      repeat split; [exact Hb | lia].
    + intros t Hin. destruct (IH t Hin) as (Hcb & Hne & Hdue).
      repeat split; [exact Hcb | exact Hne | lia].
    + intros t [].
Qed.

(** X3. Once the page has loaded, nothing changes the agent roster: in
    every reachable world the 'AI Agents Status' card lists the four mock
    agents, each with the green check icon and the 'Ready' badge, and
    'Total Agents' reads 4. No handler ever marks an agent busy or in
    error. *)
Theorem agents_never_change (w : World) (d : Dashboard) :
  reachable w ->
  render (ui w) = DashboardView d ->
  agents (ui w) = mockAgents
  /\ total_agents d = 4
  /\ map row_title (agent_rows d) = map Agent.name mockAgents
  /\ Forall (fun r =>
               row_icon r = getStatusIcon (js "ready")
               /\ row_badge r = getStatusBadge (js "ready"))
            (agent_rows d).
Proof.
  intros Hr Hd.
  destruct (reachable_quiet Hr) as [_ Ha].
  unfold render in Hd. destruct (loading (ui w)) eqn:El; [discriminate|].
  injection Hd as <-. cbn [total_agents agent_rows].
  rewrite (Ha (pending_not_loaded (reachable_consistent Hr) El)).
  split; [reflexivity|]. split; [reflexivity|]. split; [reflexivity|].
  repeat constructor.
Qed.

Lemma agents_never_change_witness :
  exists w d,
    run [Mount; Change (js "cats"); Click; Tick 2500] initial_world = Some w
    /\ render (ui w) = DashboardView d
    /\ total_agents d = 4.
Proof.
  pose (w := advance 2500
               (snd (createJob
                       (snd (setJobPrompt (js "cats")
                               (snd (fetchData (effect_done initial_world)))))))).
  assert (Hrun : run [Mount; Change (js "cats"); Click; Tick 2500]
                     initial_world = Some w) by reflexivity.
  destruct (render (ui w)) as [|d] eqn:Hd; [vm_compute in Hd; discriminate|].
  exists w, d. split; [exact Hrun|]. split; [exact Hd|].
  exact (proj1 (proj2 (@agents_never_change w d
                         (trace_reachable _ Hrun) Hd))).
Defined.

(** X4. [fetchData] never reaches its [catch]: in no reachable world has
    anything been written with [console.error]. *)
Theorem console_never_written (w : World) :
  reachable w -> console_errors w = [].
Proof.
  intros Hr. exact (proj1 (reachable_quiet Hr)).
Qed.

Lemma console_never_written_witness :
  exists w,
    run [Mount; Click; Change (js "cats"); Click; Tick 2000; TimerFires 5]
        initial_world = Some w
    /\ console_errors w = [].
Proof.
  eexists. split; [vm_compute; reflexivity|].
  apply console_never_written.
  apply (@trace_reachable
           [Mount; Click; Change (js "cats"); Click; Tick 2000; TimerFires 5]).
  vm_compute. reflexivity.
Defined.

(** X5. The error handling of [fetchData], whatever the retrieval inside
    the [try] does: the call returns normally and leaves [loading] false,
    so the page always leaves its loading view; a retrieval that throws is
    logged as one [console.error] line and swallowed, with whatever state
    it had set before throwing left in place. [fetchData] itself is this
    handling around the two mock setters. *)
Theorem fetch_failure_is_contained (body : Eff unit) (w : World) :
  fetchData = guarded_fetch (setAgents mockAgents ;; setJobs (fun _ => mockJobs))
  /\ exists w',
      guarded_fetch body w = (Normal tt, w')
      /\ loading (ui w') = false
      /\ agents (ui w') = agents (ui (snd (body w)))
      /\ jobs (ui w') = jobs (ui (snd (body w)))
      /\ alerts w' = alerts (snd (body w))
      /\ match fst (body w) with
         | Normal _ => console_errors w' = console_errors (snd (body w))
         | Throw e =>
             console_errors w'
             = console_errors (snd (body w))
               ++ [js "Error fetching data:" ++ js " " ++ e]
         end.
Proof.
  split; [reflexivity|].
  unfold guarded_fetch, try_catch_finally.
  destruct (body w) as [[[]|e] w1]; cbn [fst snd];
    eexists; (split; [reflexivity|]); repeat split.
Qed.

(** X6. No click on the create button is lost or answered twice: along
    every trace the number of clicks equals the number of alerts shown so
    far plus the number of submissions still in flight. A rejected click is
    answered at once by the validation alert, an accepted one by the
    completion alert when its timer fires. *)
Theorem every_click_is_answered (es : list Event) (w : World) :
  run es initial_world = Some w ->
  clicks es = List.length (alerts w) + in_flight w.
Proof.
  assert (H : forall es w0 w',
             consistent w0 -> run es w0 = Some w' ->
             clicks es + List.length (alerts w0) + in_flight w0
             = List.length (alerts w') + in_flight w').
  { clear. induction es as [|e es IH]; cbn [run]; intros w w' Hc Hrun.
    - injection Hrun as <-. reflexivity.
    - destruct (step e w) as [w1|] eqn:E; [|discriminate].
      specialize (IH w1 w' (consistent_step e Hc E) Hrun).
      rewrite <- IH. clear IH Hrun.
      destruct (@step_happens e w w1 Hc E)
        as [w Hp Hui Ht | value w Hp Hl Hf Ht | w Hp Hl Hf Ht Hb
            | w Hp Hl Hf Ht Hb | ms w | now prompt d w Hp Hl Hf Ht Hd];
        unfold in_flight; open_world; cbn [clicks];
        rewrite ?Ht, ?length_app; cbn [List.length app]; lia. }
  intros Hrun. rewrite <- (H es initial_world w consistent_initial Hrun).
  cbn. lia.
Qed.

Lemma every_click_is_answered_witness :
  exists w,
    run [Mount; Click; Change (js "cats"); Click; Tick 2000; TimerFires 5;
         Click; Change (js "dogs"); Click]
        initial_world = Some w
    /\ List.length (alerts w) = 3
    /\ in_flight w = 1.
Proof.
  pose (es := [Mount; Click; Change (js "cats"); Click; Tick 2000;
               TimerFires 5; Click; Change (js "dogs"); Click]).
  destruct (run es initial_world) as [w|] eqn:E;
    [|vm_compute in E; discriminate].
  exists w. split; [exact E|].
  pose proof (every_click_is_answered es E) as H. cbn [es clicks] in H.
  assert (Hf : in_flight w = 1).
  { assert (E' : option_map in_flight (run es initial_world) = Some 1)
      by (vm_compute; reflexivity).
    rewrite E in E'. now injection E'. }
  split; [lia | exact Hf].
Defined.

(** X7. After a submission resolves the prompt is empty, so a click on
    the re-enabled button without typing first only brings up the
    validation alert: no second job is scheduled. *)
Theorem click_after_resolution_is_rejected (w w1 : World) (now : Z) :
  reachable w ->
  step (TimerFires now) w = Some w1 ->
  exists w2,
    step Click w1 = Some w2
    /\ alerts w2 = alerts w1 ++ [validation_message]
    /\ ui w2 = ui w1
    /\ in_flight w2 = 0.
Proof.
  intros Hr Hstep.
  pose proof (@step_happens _ w w1 (reachable_consistent Hr) Hstep) as Hh.
  inversion Hh as [| | | | |now' prompt d w' Hp Hl Hf Ht Hd]; subst.
  unfold resolve. rewrite timeout_callback_runs. cbn [snd].
  eexists. split.
  - cbn [step]. unfold render. cbn [ui loading with_wall with_timers].
    rewrite Hl. cbn [create_disabled isCreatingJob].
    rewrite createJob_blank by reflexivity. reflexivity.
  - repeat split.
    cbn [alert snd ui with_wall with_timers loading agents jobs].
    now rewrite Hl.
Qed.

Lemma click_after_resolution_is_rejected_witness :
  exists w w1 w2,
    run [Mount; Change (js "cats"); Click; Tick 2000] initial_world = Some w
    /\ step (TimerFires 5) w = Some w1
    /\ step Click w1 = Some w2
    /\ ui w2 = ui w1
    /\ in_flight w2 = 0.
Proof.
  pose (w := advance 2000
               (snd (createJob
                       (snd (setJobPrompt (js "cats")
                               (snd (fetchData (effect_done initial_world)))))))).
  assert (Hrun : run [Mount; Change (js "cats"); Click; Tick 2000]
                     initial_world = Some w) by reflexivity.
  assert (Hfire : step (TimerFires 5) w
                  = Some (resolve (js "cats") 5 (with_timers [] w)))
    by reflexivity.
  destruct (@click_after_resolution_is_rejected w _ 5%Z
              (trace_reachable _ Hrun) Hfire) as (w2 & Hc & _ & Hui & Hf).
  exists w, (resolve (js "cats") 5 (with_timers [] w)), w2.
  repeat split; assumption.
Defined.

(* ================================================================== *)
(** ** Timing and the prompt in flight *)

(** X8. The simulated processing takes at least 2000 ms: from an accepted
    click on, whatever else happens, [isCreatingJob] is not back to false
    (and the controls are not re-enabled) before the clock has advanced by
    2000 ms. *)
Theorem resolution_takes_two_seconds
  (w w1 w' : World) (es : list Event) :
  reachable w ->
  trim (jobPrompt (ui w)) <> [] ->
  step Click w = Some w1 ->
  run es w1 = Some w' ->
  isCreatingJob (ui w') = false ->
  (clock w + 2000 <= clock w')%N.
Proof.
  intros Hr Hne Hclick Hrun Hidle.
  pose proof (reachable_consistent Hr) as Hc.
  pose proof (consistent_step Click Hc Hclick) as Hc1.
  assert (Hkeep : forall es v v',
             consistent v -> run es v = Some v' ->
             (isCreatingJob (ui v) = true
              /\ exists t, timers v = [t] /\ due t = (clock w + 2000)%N)
             \/ (clock w + 2000 <= clock v)%N ->
             (isCreatingJob (ui v') = true
              /\ exists t, timers v' = [t] /\ due t = (clock w + 2000)%N)
             \/ (clock w + 2000 <= clock v')%N).
  { clear. induction es as [|e es IH]; cbn [run]; intros v v' Hc Hrun HQ.
    - now injection Hrun as <-.
    - destruct (step e v) as [v1|] eqn:E; [|discriminate].
      apply (IH v1 v' (consistent_step e Hc E) Hrun). clear IH Hrun.
      destruct (@step_happens e v v1 Hc E)
        as [v Hp Hui Ht | value v Hp Hl Hf Ht | v Hp Hl Hf Ht Hb
            | v Hp Hl Hf Ht Hb | ms v | now prompt d v Hp Hl Hf Ht Hd];
        open_world.
      + destruct HQ as [[Hf _] | HQ]; [|now right].
        rewrite Hui in Hf. discriminate.
      + destruct HQ as [[Hf' _] | HQ]; [congruence | now right].
      + destruct HQ as [[Hf' _] | HQ]; [congruence | now right].
      + destruct HQ as [[Hf' _] | HQ]; [congruence | now right].
      + destruct HQ as [HQ | HQ]; [now left | right; lia].
      + destruct HQ as [(_ & t & Ht' & Hdue) | HQ]; [|now right].
        right. rewrite Ht in Ht'. injection Ht' as <-.
        cbn [due] in Hdue. lia. }
  assert (HQ1 : (isCreatingJob (ui w1) = true
                 /\ exists t, timers w1 = [t] /\ due t = (clock w + 2000)%N)
                \/ (clock w + 2000 <= clock w1)%N).
  { left. pose proof (@step_happens Click w w1 Hc Hclick) as Hh.
    inversion Hh as [| |w0 Hp Hl Hf Ht Hb|w0 Hp Hl Hf Ht Hb| |]; subst;
      [contradiction|].
    open_world. rewrite Ht. split; [reflexivity|].
    eexists. split; reflexivity. }
  destruct (Hkeep es w1 w' Hc1 Hrun HQ1) as [[Hf _] | H]; [congruence | exact H].
Qed.

Lemma resolution_takes_two_seconds_witness :
  exists w w1 w',
    run [Mount; Change (js "cats")] initial_world = Some w
    /\ step Click w = Some w1
    /\ run [Tick 700; Tick 1500; TimerFires 9] w1 = Some w'
    /\ (clock w + 2000 <= clock w')%N.
Proof.
  pose (w := snd (setJobPrompt (js "cats")
                    (snd (fetchData (effect_done initial_world))))).
  assert (Hrun : run [Mount; Change (js "cats")] initial_world = Some w)
    by reflexivity.
  assert (Hne : trim (jobPrompt (ui w)) <> []) by (vm_compute; discriminate).
  assert (Hclick : step Click w = Some (snd (createJob w))) by reflexivity.
  destruct (run [Tick 700; Tick 1500; TimerFires 9] (snd (createJob w)))
    as [w'|] eqn:E; [|vm_compute in E; discriminate].
  assert (Hidle : isCreatingJob (ui w') = false).
  { assert (E' : option_map (fun v => isCreatingJob (ui v))
                   (run [Tick 700; Tick 1500; TimerFires 9]
                        (snd (createJob w))) = Some false)
      by (vm_compute; reflexivity).
    rewrite E in E'. now injection E'. }
  exists w, (snd (createJob w)), w'.
  split; [exact Hrun|]. split; [exact Hclick|]. split; [exact E|].
  exact (@resolution_takes_two_seconds w _ w' _
           (trace_reachable _ Hrun) Hne Hclick E Hidle).
Defined.

(** X9. While a submission is in flight, the disabled input still shows
    exactly the prompt its timer closed over (the one the completion alert
    will quote, untrimmed), that prompt is not blank, and the timer is due
    within the next 2000 ms. *)
Theorem prompt_in_flight_is_on_screen (w : World) (t : Timer) (d : Dashboard) :
  reachable w ->
  In t (timers w) ->
  render (ui w) = DashboardView d ->
  callback t = createJob_timeout (prompt_value d)
  /\ trim (prompt_value d) <> []
  /\ prompt_disabled d = true
  /\ create_disabled d = true
  /\ (due t <= clock w + 2000)%N.
Proof.
  intros Hr Hin Hd.
  destruct (reachable_tracked Hr t Hin) as (Hcb & Hne & Hdue).
  destruct (reachable_consistent Hr) as (_ & _ & Hidle & _).
  assert (Hf : isCreatingJob (ui w) = true).
  { destruct (isCreatingJob (ui w)); [reflexivity|].
    rewrite (Hidle eq_refl) in Hin. destruct Hin. }
  unfold render in Hd. destruct (loading (ui w)); [discriminate|].
  injection Hd as <-.
  cbn [prompt_value prompt_disabled create_disabled].
  repeat split; assumption.
Qed.

Lemma prompt_in_flight_is_on_screen_witness :
  exists w t d,
    run [Mount; Change (js "  cats "); Click; Tick 500] initial_world = Some w
    /\ In t (timers w)
    /\ render (ui w) = DashboardView d
    /\ callback t = createJob_timeout (js "  cats ")
    /\ prompt_value d = js "  cats ".
Proof.
  pose (w := advance 500
               (snd (createJob
                       (snd (setJobPrompt (js "  cats ")
                               (snd (fetchData (effect_done initial_world)))))))).
  assert (Hrun : run [Mount; Change (js "  cats "); Click; Tick 500]
                     initial_world = Some w) by reflexivity.
  pose (t := {| callback := createJob_timeout (js "  cats ");
                due := 2000%N |}).
  assert (Hin : In t (timers w)) by (left; reflexivity).
  destruct (render (ui w)) as [|d] eqn:Hd; [vm_compute in Hd; discriminate|].
  assert (Hv : prompt_value d = js "  cats ").
  { assert (E : match render (ui w) with
                | DashboardView d => prompt_value d
                | LoadingView => []
                end = js "  cats ") by reflexivity.
    now rewrite Hd in E. }
  destruct (@prompt_in_flight_is_on_screen w t d
              (trace_reachable _ Hrun) Hin Hd) as (Hcb & _).
  exists w, t, d.
  split; [exact Hrun|]. split; [exact Hin|]. split; [exact Hd|].
  split; [rewrite Hcb, Hv; reflexivity | exact Hv].
Defined.

(* ================================================================== *)
(** ** What the rows show *)

Lemma dedicated_projection (status : jsstring) :
  In status [js "ready"; js "processing"; js "completed"] ->
  getStatusIcon status <> Some fallback_icon
  /\ (forall b, getStatusBadge status = Some b -> variant b <> js "outline").
Proof.
  cbn [In]. intros [<- | [<- | [<- | []]]];
    (split; [vm_compute; discriminate|]);
    intros b Hb; vm_compute in Hb; injection Hb as <-;
    vm_compute; discriminate.
Qed.

Lemma created_job_status (l : list Z) (job : Job.t) :
  In job (map created_job l) -> Job.status job = js "completed".
Proof.
  intros Hin. apply in_map_iff in Hin as (t & <- & _). reflexivity.
Qed.

(** X10. The [default] branches of the two switches are never used on the
    page: every row of the 'AI Agents Status' and 'Recent Jobs' cards, in
    every reachable world, has status 'ready', 'processing' or 'completed',
    so it never gets the gray refresh icon or an outline badge. In
    particular no job on the page is ever 'created' or 'failed'. *)
Theorem default_branches_unused (w : World) (d : Dashboard) (r : Row) :
  reachable w ->
  render (ui w) = DashboardView d ->
  In r (agent_rows d ++ job_rows d) ->
  exists status,
    In status [js "ready"; js "processing"; js "completed"]
    /\ row_icon r = getStatusIcon status
    /\ row_badge r = getStatusBadge status
    /\ row_icon r <> Some fallback_icon
    /\ (forall b, row_badge r = Some b -> variant b <> js "outline").
Proof.
  intros Hr Hd Hin.
  destruct (reachable_trace Hr) as [es Hrun].
  pose proof (jobs_of_trace es Hrun) as Hjobs.
  destruct (reachable_quiet Hr) as [_ Ha].
  pose proof (reachable_consistent Hr) as Hc.
  unfold render in Hd. destruct (loading (ui w)) eqn:El; [discriminate|].
  injection Hd as <-. cbn [agent_rows job_rows] in Hin.
  pose proof (pending_not_loaded Hc El) as Hp.
  unfold fetched_jobs in Hjobs. rewrite Hp in Hjobs.
  rewrite (Ha Hp), Hjobs in Hin.
  assert (Hst : exists status,
             In status [js "ready"; js "processing"; js "completed"]
             /\ row_icon r = getStatusIcon status
             /\ row_badge r = getStatusBadge status).
  { apply in_app_or in Hin as [Hin | Hin];
      apply in_map_iff in Hin as (x & <- & Hx).
    - exists (js "ready"). split; [now left|].
      cbn [mockAgents In] in Hx.
      destruct Hx as [<- | [<- | [<- | [<- | []]]]]; now split.
    - apply in_app_or in Hx as [Hx | Hx].
      + exists (js "completed"). split; [now right; right; left|].
        cbn [job_row row_icon row_badge].
        now rewrite (@created_job_status _ _ Hx).
      + cbn [mockJobs In] in Hx.
        destruct Hx as [<- | [<- | [<- | []]]].
        * exists (js "completed"). split; [now right; right; left | now split].
        * exists (js "processing"). split; [now right; left | now split].
        * exists (js "completed"). split; [now right; right; left | now split]. }
  destruct Hst as (status & Hs & Hi & Hb).
  exists status. rewrite Hi, Hb.
  destruct (@dedicated_projection status Hs) as [H1 H2].
  repeat split; assumption.
Qed.

Lemma default_branches_unused_witness :
  exists w d r,
    run [Mount; Change (js "cats"); Click; Tick 2000; TimerFires 5]
        initial_world = Some w
    /\ render (ui w) = DashboardView d
    /\ hd_error (job_rows d) = Some r
    /\ row_icon r <> Some fallback_icon.
Proof.
  pose (es := [Mount; Change (js "cats"); Click; Tick 2000; TimerFires 5]).
  destruct (run es initial_world) as [w|] eqn:Hrun;
    [|vm_compute in Hrun; discriminate].
  destruct (render (ui w)) as [|d] eqn:Hd.
  { exfalso.
    assert (E : option_map (fun v => loading (ui v)) (run es initial_world)
                = Some false) by (vm_compute; reflexivity).
    rewrite Hrun in E. injection E as E. unfold render in Hd.
    rewrite E in Hd. discriminate. }
  assert (Hlen : List.length (job_rows d) = 4).
  { assert (E : match option_map (fun v => render (ui v))
                        (run es initial_world) with
                | Some (DashboardView d0) => List.length (job_rows d0)
                | _ => 0
                end = 4) by (vm_compute; reflexivity).
    rewrite Hrun in E. cbn [option_map] in E. now rewrite Hd in E. }
  destruct (job_rows d) as [|r rows] eqn:Hrows; [discriminate|].
  exists w, d, r.
  split; [exact Hrun|]. split; [exact Hd|]. split; [rewrite Hrows; reflexivity|].
  destruct (@default_branches_unused w d r (trace_reachable es Hrun) Hd)
    as (status & _ & _ & _ & Hicon & _).
  - apply in_or_app. right. rewrite Hrows. now left.
  - exact Hicon.
Defined.

(** X11. The title of a job row replaces only the first underscore of the
    job type by a space: a type without an underscore is shown as it is,
    every underscore after the first one stays, and the title is as long
    as the type. *)
Theorem job_title_first_underscore (job : Job.t) :
  (~ In 95%N (Job.type job) -> row_title (job_row job) = Job.type job)
  /\ (forall a b, Job.type job = a ++ 95%N :: b -> ~ In 95%N a ->
                  row_title (job_row job) = a ++ 32%N :: b)
  /\ List.length (row_title (job_row job)) = List.length (Job.type job).
Proof.
  cbn [job_row row_title]. generalize (Job.type job) as s. intros s.
  split; [|split].
  - induction s as [|c s IH]; cbn [replace In]; intros H; [reflexivity|].
    destruct (N.eqb_spec c 95) as [->|Hc]; [exfalso; apply H; now left|].
    f_equal. apply IH. intros Hin. apply H. now right.
  - intros a. revert s. induction a as [|c a IH]; intros s b -> Ha;
      cbn [app replace].
    + reflexivity.
    + destruct (N.eqb_spec c 95) as [->|Hc]; [exfalso; apply Ha; now left|].
      f_equal. apply (IH _ b eq_refl). intros Hin. apply Ha. now right.
  - induction s as [|c s IH]; cbn [replace]; [reflexivity|].
    destruct (N.eqb c 95);
      [reflexivity | cbn [List.length]; f_equal; exact IH].
Qed.

Lemma job_title_first_underscore_witness :
  row_title (job_row (Job.mk (js "job_9") (js "long_form_video") (js "completed")))
  = js "long form_video".
Proof.
  refine (proj1 (proj2 (job_title_first_underscore
                          (Job.mk (js "job_9") (js "long_form_video")
                                  (js "completed"))))
            (js "long") (js "form_video") eq_refl _).
  vm_compute. intuition discriminate.
Defined.

(* ================================================================== *)
(** ** The completion alert *)

Lemma content_template_split (prompt : jsstring) :
  content_template prompt
  = firstn 32 (content_template [])
    ++ prompt ++ skipn 32 (content_template []).
Proof. vm_compute. reflexivity. Qed.

Lemma preview_split (prompt : jsstring) :
  firstn 150 (content_template prompt)
  = firstn 32 (content_template [])
    ++ firstn 118 (prompt ++ skipn 32 (content_template [])).
Proof.
  rewrite content_template_split at 1. rewrite firstn_app.
  f_equal.
Qed.

(** X12. The content preview in the completion alert is always exactly
    150 code units, whatever the prompt, so the alert is 193 units longer
    than the prompt. The preview starts with the 32-unit heading up to the
    opening quote; a prompt of at most 117 units appears in it whole,
    followed by the closing quote, and a prompt of 118 units or more is cut
    after its first 118 units. *)
Theorem completion_alert_preview (prompt : jsstring) :
  List.length (substring (content_template prompt) 0 150) = 150
  /\ List.length (completed_message prompt (content_template prompt))
     = 193 + List.length prompt
  /\ (List.length prompt <= 117 ->
      exists rest,
        substring (content_template prompt) 0 150
        = ([240; 376; 164; 8211] ++ js " AI Generated Content for: " ++ [34])%N
          ++ prompt ++ [34%N] ++ rest)
  /\ (118 <= List.length prompt ->
      substring (content_template prompt) 0 150
      = ([240; 376; 164; 8211] ++ js " AI Generated Content for: " ++ [34])%N
        ++ firstn 118 prompt).
Proof.
  change (substring (content_template prompt) 0 150)
    with (firstn 150 (content_template prompt)).
  assert (Hlen : List.length (firstn 150 (content_template prompt)) = 150).
  { rewrite length_firstn, content_template_split, !length_app.
    replace (List.length (firstn 32 (content_template []))) with 32
      by (vm_compute; reflexivity).
    replace (List.length (skipn 32 (content_template []))) with 425
      by (vm_compute; reflexivity).
    lia. }
  split; [exact Hlen|]. split; [|split].
  - unfold completed_message.
    change (substring (content_template prompt) 0 150)
      with (firstn 150 (content_template prompt)).
    rewrite !length_app, Hlen. cbn. lia.
  - intros Hp. rewrite preview_split, firstn_app.
    rewrite (firstn_all2 (n := 118) prompt) by lia.
    change (skipn 32 (content_template []))
      with (34%N :: skipn 33 (content_template [])).
    destruct (118 - List.length prompt) as [|k] eqn:Hk; [lia|].
    cbn [firstn]. eexists. reflexivity.
  - intros Hp. rewrite preview_split, firstn_app.
    replace (118 - List.length prompt) with 0 by lia.
    cbn [firstn]. rewrite app_nil_r. reflexivity.
Qed.

Lemma completion_alert_preview_witness :
  substring (content_template (repeat 97%N 200)) 0 150
  = ([240; 376; 164; 8211] ++ js " AI Generated Content for: " ++ [34])%N
    ++ repeat 97%N 118.
Proof.
  rewrite (proj2 (proj2 (proj2 (completion_alert_preview (repeat 97%N 200)))))
    by (vm_compute; repeat constructor).
  vm_compute. reflexivity.
Defined.

(* ================================================================== *)
(** ** Which prompts are accepted *)

Lemma has_content_iff (p : jsstring) :
  trim p <> [] <-> exists c, In c p /\ is_white_space c = false.
Proof.
  rewrite trim_nil_iff. split.
  - induction p as [|c p IH]; cbn [forallb]; intros H; [congruence|].
    destruct (is_white_space c) eqn:E.
    + destruct (IH H) as (x & Hx & Hw). exists x. split; [now right | exact Hw].
    + exists c. split; [now left | exact E].
  - intros (c & Hin & Hw) Hall.
    rewrite forallb_forall in Hall. rewrite (Hall c Hin) in Hw. discriminate.
Qed.

(** X13. [createJob] schedules a submission exactly when the prompt holds
    at least one code unit that is not ECMAScript white space, and it shows
    no alert at that moment exactly in that case. Code units such as the
    zero width space U+200B count as content. *)
Theorem createJob_acceptance_boundary (w : World) :
  (in_flight (snd (createJob w)) = S (in_flight w)
   <-> exists c, In c (jobPrompt (ui w)) /\ is_white_space c = false)
  /\ (alerts (snd (createJob w)) = alerts w
      <-> exists c, In c (jobPrompt (ui w)) /\ is_white_space c = false).
Proof.
  rewrite <- has_content_iff. unfold in_flight.
  destruct (list_eq_dec N.eq_dec (trim (jobPrompt (ui w))) []) as [Hb|Hb].
  - rewrite (createJob_blank _ Hb). cbn [alert snd timers alerts].
    split; split; intros H; try contradiction.
    + lia.
    + apply (f_equal (@List.length _)) in H. rewrite length_app in H.
      cbn in H. lia.
  - rewrite (createJob_accepted _ Hb). cbn [snd with_timers with_ui timers alerts].
    rewrite length_app. cbn [List.length].
    split; split; intros _; auto; lia.
Qed.

Lemma createJob_acceptance_boundary_witness :
  in_flight (snd (createJob (snd (setJobPrompt [32; 8203; 32]%N initial_world))))
  = 1.
Proof.
  apply (proj2 (proj1 (createJob_acceptance_boundary
                         (snd (setJobPrompt [32; 8203; 32]%N initial_world))))).
  exists 8203%N. split; [right; left; reflexivity | reflexivity].
Defined.

(* ================================================================== *)
(** ** Row keys *)

Lemma Number_toString_parses (t : Z) (s : string) :
  Number_toString t = js s ->
  NilEmpty.int_of_string s = Some (Z.to_int t).
Proof.
  unfold Number_toString. intros H. apply js_inj in H.
  rewrite <- H. apply NilEmpty.isi.
Qed.

(** A number never prints with a leading zero before another digit, so no
    created job takes the identifier of a mock job. *)
Lemma created_id_fresh (t : Z) :
  ~ In (Job.id (created_job t)) (map Job.id mockJobs).
Proof.
  assert (Hnorm : forall s d,
             Number_toString t = js s ->
             NilEmpty.int_of_string s = Some d ->
             Z.to_int (Z.of_int d) = d).
  { intros s d Hs Hd. rewrite (Number_toString_parses _ _ Hs) in Hd.
    injection Hd as <-. now rewrite DecimalZ.of_to. }
  cbn [mockJobs map Job.id created_job In].
  intros [H | [H | [H | []]]]; symmetry in H;
    apply (app_inv_head (js "job_")) in H.
  - specialize (Hnorm "001"%string _ H eq_refl). vm_compute in Hnorm.
    discriminate.
  - specialize (Hnorm "002"%string _ H eq_refl). vm_compute in Hnorm.
    discriminate.
  - specialize (Hnorm "003"%string _ H eq_refl). vm_compute in Hnorm.
    discriminate.
Qed.

Lemma created_id_inj (t1 t2 : Z) :
  Job.id (created_job t1) = Job.id (created_job t2) -> t1 = t2.
Proof.
  cbn [created_job Job.id]. intros H.
  apply Number_toString_inj, (app_inv_head (js "job_")). exact H.
Qed.

(** X14. The React keys of the 'Recent Jobs' rows (the job identifiers)
    are pairwise distinct exactly when the [Date.now()] readings of the
    resolved submissions are pairwise distinct: a created job never
    collides with a mock job, and two created jobs collide exactly when
    their timers fired at the same millisecond reading. *)
Theorem job_row_keys_unique (es : list Event) (w : World) (d : Dashboard) :
  run es initial_world = Some w ->
  render (ui w) = DashboardView d ->
  (NoDup (map row_key (job_rows d)) <-> NoDup (fire_times es)).
Proof.
  intros Hrun Hd.
  pose proof (jobs_of_trace es Hrun) as Hjobs.
  pose proof (reachable_consistent (trace_reachable es Hrun)) as Hc.
  unfold render in Hd. destruct (loading (ui w)) eqn:El; [discriminate|].
  injection Hd as <-. cbn [job_rows].
  unfold fetched_jobs in Hjobs. rewrite (pending_not_loaded Hc El) in Hjobs.
  rewrite map_map. cbn [job_row row_key].
  change (map (fun x : Job.t => Job.id x) (jobs (ui w)))
    with (map Job.id (jobs (ui w))).
  rewrite Hjobs, map_app, map_map.
  split.
  - intros H. apply NoDup_app_remove_r, NoDup_map_inv in H.
    apply NoDup_rev in H. now rewrite rev_involutive in H.
  - intros H. apply NoDup_app.
    + apply NoDup_map_NoDup_ForallPairs; [|now apply NoDup_rev].
      intros t1 t2 _ _. apply created_id_inj.
    + repeat constructor; vm_compute; intuition discriminate.
    + intros a Ha. apply in_map_iff in Ha as (t & <- & _).
      apply created_id_fresh.
Qed.

Lemma job_row_keys_unique_witness :
  exists w d,
    run [Mount; Change (js "cats"); Click; Tick 2000; TimerFires 5;
         Change (js "dogs"); Click; Tick 2000; TimerFires 5]
        initial_world = Some w
    /\ render (ui w) = DashboardView d
    /\ ~ NoDup (map row_key (job_rows d)).
Proof.
  pose (es := [Mount; Change (js "cats"); Click; Tick 2000; TimerFires 5;
               Change (js "dogs"); Click; Tick 2000; TimerFires 5]).
  destruct (run es initial_world) as [w|] eqn:Hrun;
    [|vm_compute in Hrun; discriminate].
  destruct (render (ui w)) as [|d] eqn:Hd.
  { exfalso.
    assert (E : option_map (fun v => loading (ui v)) (run es initial_world)
                = Some false) by (vm_compute; reflexivity).
    rewrite Hrun in E. injection E as E. unfold render in Hd.
    rewrite E in Hd. discriminate. }
  exists w, d. split; [exact Hrun|]. split; [exact Hd|].
  intros H. apply (proj1 (job_row_keys_unique es Hrun Hd)) in H.
  cbn [es fire_times] in H. inversion H as [|x l Hx _]; subst.
  apply Hx. now left.
Defined.
